(** * Lecture Pilot: a shallow embedding of the client's logic

  The development follows the TypeScript sources:
  - [types.ts]                      -> [Module Types]
  - [services/geminiService.ts]     -> [Module GeminiService]
  - [App.tsx]                       -> [Module App]
  - [components/UploadSection.tsx]  -> [Module UploadSection]
  - [components/Dashboard.tsx]      -> [Module Dashboard]

  JavaScript values are modelled as the run time has them: strings are
  sequences of UTF-16 code units, numbers that the code computes with in
  floating point are binary64 floats, objects used as dictionaries are
  finite maps, promises are their settled outcome. *)

From Stdlib Require Import ZArith NArith List String Ascii Floats DecimalString
  DecimalN.
From stdpp Require Import base list gmap.

Set Default Proof Using "Type".
Set Warnings "-register-all".

(* ===================================================================== *)
(** ** The JavaScript platform *)
(* ===================================================================== *)

Module JS.

(** A JavaScript string: its UTF-16 code units. *)
Abbreviation jsstring := (list N).

(** An ASCII literal as a JavaScript string. *)
Definition str (s : string) : jsstring :=
  map N_of_ascii (list_ascii_of_string s).

(** [s.length]. *)
Definition strlen (s : jsstring) : nat := length s.

(** [s.substring(0, n)] for an integer [n >= 0]. *)
Definition substring0 (n : N) (s : jsstring) : jsstring := take (N.to_nat n) s.

(** ToBoolean on a string: only the empty string is falsy. *)
Definition truthy (s : jsstring) : bool :=
  match s with [] => false | _ :: _ => true end.

(** [t || d] where [t] is a string or [undefined]. *)
Definition or_else (t : option jsstring) (d : jsstring) : jsstring :=
  match t with
  | Some s => if truthy s then s else d
  | None => d
  end.

(** LineTerminator code units: LF, CR, LS, PS. *)
Definition is_line_terminator (c : N) : bool :=
  (N.eqb c 10 || N.eqb c 13 || N.eqb c 8232 || N.eqb c 8233)%bool.

(** WhiteSpace code units (TAB, VT, FF, SP, NBSP, ZWNBSP and the Unicode
    space separators), the set [String.prototype.trim] strips together with
    the line terminators. *)
Definition is_white_space (c : N) : bool :=
  (N.eqb c 9 || N.eqb c 11 || N.eqb c 12 || N.eqb c 32 || N.eqb c 160
   || N.eqb c 5760 || (N.leb 8192 c && N.leb c 8202)
   || N.eqb c 8239 || N.eqb c 8287 || N.eqb c 12288 || N.eqb c 65279)%bool.

Definition strips (c : N) : bool :=
  (is_white_space c || is_line_terminator c)%bool.

Fixpoint trim_start (s : jsstring) : jsstring :=
  match s with
  | c :: s' => if strips c then trim_start s' else s
  | [] => []
  end.

(** [s.trim()]. *)
Definition trim (s : jsstring) : jsstring :=
  rev (trim_start (rev (trim_start s))).

(** [n.toString()] for a non-negative integer [n]. *)
Definition toString (n : N) : jsstring :=
  str (NilZero.string_of_uint (N.to_uint n)).

(** A thrown value; only its message is kept. *)
Record Error := mkError { message : jsstring }.

(** A promise, by its settled outcome. *)
Inductive Promise (A : Type) : Type :=
| Fulfilled (a : A)
| Rejected (e : Error).
Arguments Fulfilled {A} a.
Arguments Rejected {A} e.

(** [await p] followed by the rest of an async function: a rejection
    leaves the function by its exceptional exit. *)
Definition await {A B} (p : Promise A) (k : A -> Promise B) : Promise B :=
  match p with
  | Fulfilled a => k a
  | Rejected e => Rejected e
  end.

(** [try { body } catch (error) { handler }] around an async body. *)
Definition try_catch {A} (body : Promise A) (handler : Error -> Promise A)
  : Promise A :=
  match body with
  | Fulfilled a => Fulfilled a
  | Rejected e => handler e
  end.

(** A synchronous computation that may throw ([JSON.parse]) lifted in an
    async body. *)
Definition of_throwing {A} (r : option A) (e : Error) : Promise A :=
  match r with
  | Some a => Fulfilled a
  | None => Rejected e
  end.

(** A value produced by [JSON.parse]. Numbers are binary64, object members
    keep their textual order. *)
Inductive JSON : Type :=
| JNull
| JBool (b : bool)
| JNumber (x : float)
| JString (s : jsstring)
| JArray (elements : list JSON)
| JObject (members : list (jsstring * JSON)).

(** [o[key]] on a parsed object ([None] is [undefined]); with a repeated
    key [JSON.parse] keeps the last member. *)
Fixpoint get_member (key : jsstring) (members : list (jsstring * JSON))
  : option JSON :=
  match members with
  | [] => None
  | (k, v) :: rest =>
      match get_member key rest with
      | Some v' => Some v'
      | None => if decide (k = key) then Some v else None
      end
  end.

Definition get (key : jsstring) (v : JSON) : option JSON :=
  match v with
  | JObject members => get_member key members
  | _ => None
  end.

(** The elements of an array value. *)
Definition elements_of (v : JSON) : option (list JSON) :=
  match v with
  | JArray l => Some l
  | _ => None
  end.

End JS.

Notation "'let/await' x ':=' p 'in' k" :=
  (JS.await p (fun x => k))
  (at level 10, x name, p at level 100, k at level 200).

(* ===================================================================== *)
(** ** types.ts *)
(* ===================================================================== *)

Module Types.
Import JS.

Inductive ViewState := AUTH | UPLOAD | PROCESSING | DASHBOARD.

Inductive ExamType := UNIVERSITY | COMPETITIVE | SCHOOL | GENERAL.

Inductive TimeFrame := ONE_DAY | ONE_WEEK | ONE_MONTH.

(** The string values of the two string enums. *)
Definition ExamType_value (t : ExamType) : jsstring :=
  match t with
  | UNIVERSITY => str "University Final"
  | COMPETITIVE => str "Competitive Exam (MCQ)"
  | SCHOOL => str "School Test"
  | GENERAL => str "General Knowledge"
  end.

Definition TimeFrame_value (t : TimeFrame) : jsstring :=
  match t with
  | ONE_DAY => str "1 Day"
  | ONE_WEEK => str "1 Week"
  | ONE_MONTH => str "1 Month"
  end.

(** [QuizQuestion], as the quiz widget reads it: integer id and index. *)
Record QuizQuestion := {
  id : Z;
  question : jsstring;
  options : list jsstring;
  correctAnswerIndex : Z;
  explanation : jsstring
}.

Record Flashcard := {
  card_id : Z;
  front : jsstring;
  back : jsstring
}.

Record LectureData := {
  title : jsstring;
  transcript : jsstring;
  videoUrl : option jsstring;
  videoId : option jsstring
}.

Inductive Sender := user_sender | ai_sender.

Record ChatMessage := {
  msg_id : jsstring;
  sender : Sender;
  text : jsstring;
  timestamp : N
}.

Record User := {
  user_id : jsstring;
  email : jsstring;
  name : option jsstring
}.

(** [AppState]. The five structured artifacts are held as the values
    [JSON.parse] returned: the casts [as Chapter[]], [as QuizQuestion[]],
    ... are erased at run time and check nothing. *)
Record AppState := {
  view : ViewState;
  user : option User;
  lecture : option LectureData;
  examType : ExamType;
  timeFrame : TimeFrame;
  summary : jsstring;
  chapters : JSON;
  formulas : JSON;
  strategy : option JSON;
  quiz : JSON;
  flashcards : JSON;
  cheatSheet : jsstring;
  chatHistory : list ChatMessage;
  error : option jsstring;
  successMessage : option jsstring
}.

End Types.

(* ===================================================================== *)
(** ** services/geminiService.ts *)
(* ===================================================================== *)

Module GeminiService.
Import JS Types.

(** A response schema ([Type.STRING], [Type.INTEGER], [Type.ARRAY] with its
    [items], [Type.OBJECT] with its [properties] and [required]); the
    [description] annotations are left out. *)
Inductive Schema : Type :=
| SString
| SInteger
| SArray (items : Schema)
| SObject (properties : list (string * Schema)) (required : list string).

(** The [contents] of a request: the fixed wording of each generator's
    template literal is the constructor, its arguments are the values the
    template interpolates. *)
Inductive Contents : Type :=
| SummaryPrompt (lecture_text : jsstring)
| ChaptersPrompt (lecture_text : jsstring)
| FormulasPrompt (lecture_text : jsstring)
| ChatPrompt (transcript_context : jsstring) (student_question : jsstring)
| StrategyPrompt (type time : jsstring) (lecture_text : jsstring)
| QuizPrompt (lecture_text : jsstring)
| FlashcardsPrompt (lecture_text : jsstring)
| CheatSheetPrompt (lecture_text : jsstring)
| YouTubePrompt (url : jsstring) (title : option jsstring).

Inductive Tool := googleSearch.

Record Config := {
  responseMimeType : option string;
  responseSchema : option Schema;
  tools : list Tool
}.

Record Request := {
  model : string;
  contents : Contents;
  config : option Config
}.

(** What a fulfilled [generateContent] gives: [response.text] is a string or
    [undefined]. *)
Record Response := { response_text : option jsstring }.

Definition MODEL_FAST : string := "gemini-2.5-flash".
Definition MODEL_SMART : string := "gemini-2.5-flash".

Definition json_config (schema : Schema) : option Config :=
  Some {| responseMimeType := Some "application/json"%string;
          responseSchema := Some schema;
          tools := [] |}.

Definition chapters_schema : Schema :=
  SArray (SObject [("timestamp", SString); ("title", SString);
                   ("summary", SString)]%string
                  ["timestamp"; "title"; "summary"]%string).

Definition formulas_schema : Schema :=
  SArray (SObject [("expression", SString); ("description", SString)]%string
                  ["expression"; "description"]%string).

Definition strategy_schema : Schema :=
  SObject [("priorityTopics", SArray SString); ("skipTopics", SArray SString);
           ("focusAdvice", SString)]%string
          ["priorityTopics"; "skipTopics"; "focusAdvice"]%string.

Definition quiz_schema : Schema :=
  SArray (SObject [("id", SInteger); ("question", SString);
                   ("options", SArray SString);
                   ("correctAnswerIndex", SInteger);
                   ("explanation", SString)]%string
                  ["id"; "question"; "options"; "correctAnswerIndex";
                   "explanation"]%string).

Definition flashcards_schema : Schema :=
  SArray (SObject [("id", SInteger); ("front", SString); ("back", SString)]%string
                  ["id"; "front"; "back"]%string).

(** The value the strategy generator falls back to. *)
Definition default_strategy : JSON :=
  JObject [(str "priorityTopics", JArray [JString (str "Core Concepts")]);
           (str "skipTopics", JArray [JString (str "Detailed derivations")]);
           (str "focusAdvice", JString (str "Focus on the main summary points."))].

Definition SyntaxError : Error := mkError (str "SyntaxError").

(** The request object each generator passes to [generateContent]. *)
Definition summary_request (text : jsstring) : Request :=
  {| model := MODEL_FAST;
     contents := SummaryPrompt (substring0 30000 text);
     config := None |}.

Definition chapters_request (text : jsstring) : Request :=
  {| model := MODEL_FAST;
     contents := ChaptersPrompt (substring0 30000 text);
     config := json_config chapters_schema |}.

Definition formulas_request (text : jsstring) : Request :=
  {| model := MODEL_FAST;
     contents := FormulasPrompt (substring0 30000 text);
     config := json_config formulas_schema |}.

Definition chat_request (transcript message : jsstring) : Request :=
  {| model := MODEL_SMART;
     contents := ChatPrompt (substring0 20000 transcript) message;
     config := None |}.

Definition strategy_request (text : jsstring) (type : ExamType)
    (time : TimeFrame) : Request :=
  {| model := MODEL_FAST;
     contents := StrategyPrompt (ExamType_value type) (TimeFrame_value time)
                                (substring0 20000 text);
     config := json_config strategy_schema |}.

Definition quiz_request (text : jsstring) : Request :=
  {| model := MODEL_FAST;
     contents := QuizPrompt (substring0 20000 text);
     config := json_config quiz_schema |}.

Definition flashcards_request (text : jsstring) : Request :=
  {| model := MODEL_FAST;
     contents := FlashcardsPrompt (substring0 20000 text);
     config := json_config flashcards_schema |}.

Definition cheatSheet_request (text : jsstring) : Request :=
  {| model := MODEL_SMART;
     contents := CheatSheetPrompt (substring0 30000 text);
     config := None |}.

Definition youtube_request (url : jsstring) (title : option jsstring)
  : Request :=
  {| model := MODEL_FAST;
     contents := YouTubePrompt url
                   (match title with
                    | Some t => if truthy t then Some t else None
                    | None => None
                    end);
     config := Some {| responseMimeType := None; responseSchema := None;
                       tools := [googleSearch] |} |}.

Section Collaborators.

(** The AI collaborator, [ai.models.generateContent]: it fulfils with a
    response or rejects. *)
Variable generateContent : Request -> Promise Response.

(** [JSON.parse]: [None] when it throws a [SyntaxError]. *)
Variable JSON_parse : jsstring -> option JSON.

Definition parse (s : jsstring) : Promise JSON :=
  of_throwing (JSON_parse s) SyntaxError.

Definition generateSummary (text : jsstring) : Promise jsstring :=
  try_catch
    (let/await response := generateContent (summary_request text) in
     Fulfilled (or_else (response_text response)
                        (str "Failed to generate summary.")))
    (fun error => Rejected (mkError (str "Could not generate summary."))).

Definition generateChapters (text : jsstring) : Promise JSON :=
  try_catch
    (let/await response := generateContent (chapters_request text) in
     parse (or_else (response_text response) (str "[]")))
    (fun error => Fulfilled (JArray [])).

Definition extractFormulas (text : jsstring) : Promise JSON :=
  try_catch
    (let/await response := generateContent (formulas_request text) in
     parse (or_else (response_text response) (str "[]")))
    (fun error => Fulfilled (JArray [])).

(** [history] is accepted and not used. *)
Definition chatWithLecture (transcript : jsstring)
    (history : list (jsstring * jsstring)) (message : jsstring)
  : Promise jsstring :=
  try_catch
    (let/await response := generateContent (chat_request transcript message) in
     Fulfilled (or_else (response_text response)
                        (str "I'm having trouble thinking right now.")))
    (fun error => Fulfilled (str "Sorry, I encountered an error answering that.")).

Definition generateExamStrategy (text : jsstring) (type : ExamType)
    (time : TimeFrame) : Promise JSON :=
  try_catch
    (let/await response := generateContent (strategy_request text type time) in
     let/await json := parse (or_else (response_text response) (str "{}")) in
     Fulfilled json)
    (fun error => Fulfilled default_strategy).

Definition generateQuiz (text : jsstring) : Promise JSON :=
  try_catch
    (let/await response := generateContent (quiz_request text) in
     parse (or_else (response_text response) (str "[]")))
    (fun error => Fulfilled (JArray [])).

Definition generateFlashcards (text : jsstring) : Promise JSON :=
  try_catch
    (let/await response := generateContent (flashcards_request text) in
     parse (or_else (response_text response) (str "[]")))
    (fun error => Fulfilled (JArray [])).

Definition generateCheatSheet (text : jsstring) : Promise jsstring :=
  try_catch
    (let/await response := generateContent (cheatSheet_request text) in
     Fulfilled (or_else (response_text response) []))
    (fun error => Fulfilled (str "Could not generate cheat sheet.")).

Definition generateYouTubeTranscript (url : jsstring) (title : option jsstring)
  : Promise jsstring :=
  try_catch
    (let/await response := generateContent (youtube_request url title) in
     Fulfilled (or_else (response_text response)
                        (str "Failed to generate transcript.")))
    (fun error => Fulfilled (str
       "Error processing YouTube video. The AI could not access the video content directly.")).

End Collaborators.

End GeminiService.

(* ===================================================================== *)
(** ** App.tsx *)
(* ===================================================================== *)

Module App.
Import JS Types GeminiService.

(** The initial [appState]. *)
Definition initial_state : AppState :=
  {| view := AUTH; user := None; lecture := None;
     examType := UNIVERSITY; timeFrame := ONE_WEEK;
     summary := []; chapters := JArray []; formulas := JArray [];
     strategy := None; quiz := JArray []; flashcards := JArray [];
     cheatSheet := []; chatHistory := []; error := None;
     successMessage := None |}.

Definition handleLogin (u : User) (prev : AppState) : AppState :=
  {| view := UPLOAD; user := Some u; lecture := lecture prev;
     examType := examType prev; timeFrame := timeFrame prev;
     summary := summary prev; chapters := chapters prev;
     formulas := formulas prev; strategy := strategy prev;
     quiz := quiz prev; flashcards := flashcards prev;
     cheatSheet := cheatSheet prev; chatHistory := chatHistory prev;
     error := error prev; successMessage := successMessage prev |}.

(** [handleSignOut]: the updater it passes to [setAppState]. *)
Definition handleSignOut (prev : AppState) : AppState :=
  {| view := AUTH; user := None; lecture := None;
     examType := examType prev; timeFrame := timeFrame prev;
     summary := []; chapters := chapters prev;
     formulas := formulas prev; strategy := strategy prev;
     quiz := JArray []; flashcards := flashcards prev;
     cheatSheet := cheatSheet prev; chatHistory := chatHistory prev;
     error := None; successMessage := successMessage prev |}.

(** [handleReset]: the updater it passes to [setAppState]. *)
Definition handleReset (prev : AppState) : AppState :=
  {| view := UPLOAD; user := user prev; lecture := None;
     examType := examType prev; timeFrame := timeFrame prev;
     summary := []; chapters := chapters prev;
     formulas := formulas prev; strategy := strategy prev;
     quiz := JArray []; flashcards := flashcards prev;
     cheatSheet := cheatSheet prev; chatHistory := chatHistory prev;
     error := None; successMessage := successMessage prev |}.

(** The first update of [handleStartProcessing], before the requests. *)
Definition start_processing (text title : jsstring) (et : ExamType)
    (tf : TimeFrame) (vid : option jsstring) (prev : AppState) : AppState :=
  {| view := PROCESSING; user := user prev;
     lecture := Some {| title := title; transcript := text;
                        videoUrl := None; videoId := vid |};
     examType := et; timeFrame := tf;
     summary := summary prev; chapters := chapters prev;
     formulas := formulas prev; strategy := strategy prev;
     quiz := quiz prev; flashcards := flashcards prev;
     cheatSheet := cheatSheet prev; chatHistory := chatHistory prev;
     error := error prev; successMessage := successMessage prev |}.

(** The seven artifacts, in the order of the destructured array. *)
Record Artifacts := {
  a_summary : jsstring;
  a_chapters : JSON;
  a_formulas : JSON;
  a_strategy : JSON;
  a_quiz : JSON;
  a_flashcards : JSON;
  a_cheatSheet : jsstring
}.

(** [Promise.all] over the seven promises: fulfilled with all seven values
    when every promise is, rejected as soon as one is (with the reason of the
    first rejected one in array order; the caller ignores the reason). *)
Definition Promise_all (p1 : Promise jsstring) (p2 p3 p4 p5 p6 : Promise JSON)
    (p7 : Promise jsstring) : Promise Artifacts :=
  let/await v1 := p1 in
  let/await v2 := p2 in
  let/await v3 := p3 in
  let/await v4 := p4 in
  let/await v5 := p5 in
  let/await v6 := p6 in
  let/await v7 := p7 in
  Fulfilled {| a_summary := v1; a_chapters := v2; a_formulas := v3;
               a_strategy := v4; a_quiz := v5; a_flashcards := v6;
               a_cheatSheet := v7 |}.

Definition welcome_message (now : N) : ChatMessage :=
  {| msg_id := str "welcome"; sender := ai_sender;
     text := str "Hi! I am your AI Tutor. I have analyzed the lecture. Ask me anything about the concepts or specific doubts!";
     timestamp := now |}.

(** The update on the success path of [handleStartProcessing]. *)
Definition show_dashboard (r : Artifacts) (now : N) (prev : AppState)
  : AppState :=
  {| view := DASHBOARD; user := user prev; lecture := lecture prev;
     examType := examType prev; timeFrame := timeFrame prev;
     summary := a_summary r; chapters := a_chapters r;
     formulas := a_formulas r; strategy := Some (a_strategy r);
     quiz := a_quiz r; flashcards := a_flashcards r;
     cheatSheet := a_cheatSheet r;
     chatHistory := [welcome_message now];
     error := error prev; successMessage := successMessage prev |}.

Definition processing_error : jsstring :=
  str "An error occurred while communicating with the AI. Please try again.".

(** The update in the [catch] of [handleStartProcessing]. *)
Definition back_to_upload (prev : AppState) : AppState :=
  {| view := UPLOAD; user := user prev; lecture := lecture prev;
     examType := examType prev; timeFrame := timeFrame prev;
     summary := summary prev; chapters := chapters prev;
     formulas := formulas prev; strategy := strategy prev;
     quiz := quiz prev; flashcards := flashcards prev;
     cheatSheet := cheatSheet prev; chatHistory := chatHistory prev;
     error := Some processing_error;
     successMessage := successMessage prev |}.

Section Collaborators.

Variable generateContent : Request -> Promise Response.
Variable JSON_parse : jsstring -> option JSON.

(** The fan-out of [handleStartProcessing]. *)
Definition fan_out (text : jsstring) (et : ExamType) (tf : TimeFrame)
  : Promise Artifacts :=
  Promise_all
    (generateSummary generateContent text)
    (generateChapters generateContent JSON_parse text)
    (extractFormulas generateContent JSON_parse text)
    (generateExamStrategy generateContent JSON_parse text et tf)
    (generateQuiz generateContent JSON_parse text)
    (generateFlashcards generateContent JSON_parse text)
    (generateCheatSheet generateContent text).

(** [handleStartProcessing], from the state it is started in to the state
    after its last update; [now] is the clock at the success update. *)
Definition handleStartProcessing (text title : jsstring) (et : ExamType)
    (tf : TimeFrame) (vid : option jsstring) (now : N) (prev : AppState)
  : AppState :=
  let processing := start_processing text title et tf vid prev in
  match fan_out text et tf with
  | Fulfilled r => show_dashboard r now processing
  | Rejected error => back_to_upload processing
  end.

End Collaborators.

End App.

(* ===================================================================== *)
(** ** components/UploadSection.tsx *)
(* ===================================================================== *)

Module UploadSection.
Import JS.

(** The pieces the pattern of [extractVideoId] is made of: a literal code
    unit, [.] (anything but a line terminator) and [\w]. *)
Inductive Atom := Lit (c : N) | Dot | Word.

Definition is_word (c : N) : bool :=
  ((N.leb 65 c && N.leb c 90) || (N.leb 97 c && N.leb c 122)
   || (N.leb 48 c && N.leb c 57) || N.eqb c 95)%bool.

Definition atom_matches (a : Atom) (c : N) : bool :=
  match a with
  | Lit x => N.eqb c x
  | Dot => negb (is_line_terminator c)
  | Word => is_word c
  end.

(** Matching a sequence of atoms at the head of [s]: the text left after it. *)
Fixpoint match_atoms (p : list Atom) (s : jsstring) : option jsstring :=
  match p with
  | [] => Some s
  | a :: p' =>
      match s with
      | c :: s' => if atom_matches a c then match_atoms p' s' else None
      | [] => None
      end
  end.

Definition lit (s : string) : list Atom := map Lit (str s).

(** The first group, [(youtu.be\/|v\/|u\/\w\/|embed\/|watch\?v=|&v=)]: the
    dot of [youtu.be] is not escaped. *)
Definition markers : list (list Atom) :=
  [ lit "youtu" ++ [Dot] ++ lit "be/";
    lit "v/";
    lit "u/" ++ [Word] ++ lit "/";
    lit "embed/";
    lit "watch?v=";
    lit "&v=" ].

(** The alternatives are tried from left to right at the head of [s]; the
    result is the text matched and the text after it. *)
Fixpoint first_alternative (alts : list (list Atom)) (s : jsstring)
  : option (jsstring * jsstring) :=
  match alts with
  | [] => None
  | p :: alts' =>
      match match_atoms p s with
      | Some rest => Some (take (length p) s, rest)
      | None => first_alternative alts' s
      end
  end.

(** The class [[^#&?]] of the second group. *)
Definition id_char (c : N) : bool :=
  negb (N.eqb c 35 || N.eqb c 38 || N.eqb c 63).

(** A greedy [[...]*]: the longest run of the class at the head of [s]. *)
Fixpoint run_of (f : N -> bool) (s : jsstring) : jsstring :=
  match s with
  | c :: s' => if f c then c :: run_of f s' else []
  | [] => []
  end.

(** The captures of a match: groups 1 and 2. *)
Record Match := { group1 : jsstring; group2 : jsstring }.

(** The pattern after its leading [^.*], tried at [s]. The second group takes
    the longest run and the closing [.*] matches whatever follows (possibly
    nothing), so once an alternative of the first group matches the whole
    pattern does, and the matcher never comes back into the groups. *)
Definition groups_at (s : jsstring) : option Match :=
  match first_alternative markers s with
  | Some (g1, rest) => Some {| group1 := g1; group2 := run_of id_char rest |}
  | None => None
  end.

(** [url.match(regExp)]. The pattern is, from left to right: the anchor [^],
    a greedy [.*], the first group (the alternatives of [markers]), the
    second group (a greedy star of the class [[^#&?]]) and a closing greedy
    [.*]. The leading [.*] takes as many characters as it can and gives them
    back one at a time until the rest of the pattern matches. *)
Fixpoint regExp_match (s : jsstring) : option Match :=
  match s with
  | c :: s' =>
      if negb (is_line_terminator c) then
        match regExp_match s' with
        | Some m => Some m
        | None => groups_at s
        end
      else groups_at s
  | [] => groups_at []
  end.

Definition extractVideoId (url : jsstring) : option jsstring :=
  match regExp_match url with
  | Some m => if Nat.eqb (strlen (group2 m)) 11 then Some (group2 m) else None
  | None => None
  end.

End UploadSection.

(* ===================================================================== *)
(** ** components/Dashboard.tsx *)
(* ===================================================================== *)

Module Dashboard.
Import JS Types GeminiService.

(** *** The tutor chat *)

Record ChatState := {
  chatMessages : list ChatMessage;
  chatInput : jsstring;
  isChatLoading : bool
}.

(** The four clock readings of one turn: [Date.now()] and [new Date()] for
    the user's message, then for the reply. *)
Record Clock := {
  user_now : N;
  user_date : N;
  reply_now : N;
  reply_date : N
}.

Definition user_message (clk : Clock) (input : jsstring) : ChatMessage :=
  {| msg_id := toString (user_now clk); sender := user_sender;
     text := input; timestamp := user_date clk |}.

Definition ai_message (clk : Clock) (response : jsstring) : ChatMessage :=
  {| msg_id := toString (reply_now clk + 1); sender := ai_sender;
     text := response; timestamp := reply_date clk |}.

(** The synchronous part of [handleSendMessage]: the user's message is
    appended, the input cleared and the loading flag raised. *)
Definition send_begin (clk : Clock) (st : ChatState) : ChatState :=
  {| chatMessages := chatMessages st ++ [user_message clk (chatInput st)];
     chatInput := [];
     isChatLoading := true |}.

(** The role/content pairs passed as history. *)
Definition history_of (msgs : list ChatMessage) : list (jsstring * jsstring) :=
  map (fun m => (match sender m with
                 | user_sender => str "user"
                 | ai_sender => str "ai"
                 end, text m)) msgs.

Section Collaborators.

Variable generateContent : Request -> Promise Response.

(** [handleSendMessage], to the state after its [finally]. *)
Definition handleSendMessage (lecture : option LectureData) (clk : Clock)
    (st : ChatState) : ChatState :=
  if negb (truthy (trim (chatInput st))) then st
  else
    let userMsg := user_message clk (chatInput st) in
    let sent := send_begin clk st in
    let transcript_or_empty :=
      or_else (option_map transcript lecture) [] in
    let settled :=
      match chatWithLecture generateContent transcript_or_empty
              (history_of (chatMessages st)) (text userMsg) with
      | Fulfilled response =>
          {| chatMessages := chatMessages sent ++ [ai_message clk response];
             chatInput := chatInput sent;
             isChatLoading := isChatLoading sent |}
      | Rejected err => sent
      end in
    {| chatMessages := chatMessages settled;
       chatInput := chatInput settled;
       isChatLoading := false |}.

End Collaborators.

(** *** FlashcardDeck *)

Record DeckState := { currentIndex : Z; flipped : bool }.

(** [handleNext] with its delayed index update applied. The buttons exist
    only for a non-empty deck; [%] is the truncating remainder. *)
Definition handleNext (cards : list Flashcard) (st : DeckState) : DeckState :=
  {| currentIndex := Z.rem (currentIndex st + 1) (Z.of_nat (length cards));
     flipped := false |}.

Definition handlePrev (cards : list Flashcard) (st : DeckState) : DeckState :=
  {| currentIndex :=
       Z.rem (currentIndex st - 1 + Z.of_nat (length cards))
             (Z.of_nat (length cards));
     flipped := false |}.

(** *** QuizComponent *)

(** [userAnswers] is an object keyed by question id. *)
Record QuizState := { userAnswers : gmap Z Z; showResults : bool }.

Definition quiz_initial : QuizState :=
  {| userAnswers := ∅; showResults := false |}.

Definition handleOptionSelect (qId optionIdx : Z) (st : QuizState)
  : QuizState :=
  if showResults st then st
  else {| userAnswers := <[qId := optionIdx]> (userAnswers st);
          showResults := showResults st |}.

(** [userAnswers[q.id] === q.correctAnswerIndex]. *)
Definition answered_correctly (answers : gmap Z Z) (q : QuizQuestion) : bool :=
  match answers !! id q with
  | Some a => Z.eqb a (correctAnswerIndex q)
  | None => false
  end.

(** [calculateScore]: the [forEach] loop over the questions with its
    counter. *)
Definition calculateScore (questions : list QuizQuestion)
    (answers : gmap Z Z) : nat :=
  fold_left (fun score q => if answered_correctly answers q then S score
                            else score)
            questions 0.

Record Feedback := { fb_title : jsstring; fb_color : jsstring; fb_msg : jsstring }.

Definition outstanding : Feedback :=
  {| fb_title := str "Outstanding Mastery!"; fb_color := str "text-green-400";
     fb_msg := str "You have a solid grasp of the core concepts. You are ready!" |}.
Definition great_progress : Feedback :=
  {| fb_title := str "Great Progress"; fb_color := str "text-indigo-400";
     fb_msg := str "Good understanding. Review the incorrect answers to refine your knowledge." |}.
Definition good_start : Feedback :=
  {| fb_title := str "Good Start"; fb_color := str "text-amber-400";
     fb_msg := str "You understand the basics, but there are gaps. Check the summary again." |}.
Definition needs_review : Feedback :=
  {| fb_title := str "Needs Review"; fb_color := str "text-red-400";
     fb_msg := str "It seems like you struggled. I recommend re-watching the key segments." |}.

(** [getPerformanceFeedback], on JavaScript numbers. *)
Definition getPerformanceFeedback (score total : float) : Feedback :=
  let percentage := ((score / total) * 100)%float in
  if (90 <=? percentage)%float then outstanding
  else if (70 <=? percentage)%float then great_progress
  else if (50 <=? percentage)%float then good_start
  else needs_review.

(** A count as a JavaScript number (exact below 2^53). *)
Definition number_of_nat (n : nat) : float :=
  PrimFloat.of_uint63 (Uint63.of_Z (Z.of_nat n)).

(** The feedback shown with the results:
    [getPerformanceFeedback(score, questions.length)]. *)
Definition feedback (questions : list QuizQuestion) (answers : gmap Z Z)
  : Feedback :=
  getPerformanceFeedback (number_of_nat (calculateScore questions answers))
                         (number_of_nat (length questions)).

(** The [disabled] attribute of the submit button:
    [Object.keys(userAnswers).length < questions.length]. *)
Definition submit_disabled (questions : list QuizQuestion) (st : QuizState)
  : bool :=
  Nat.ltb (size (userAnswers st)) (length questions).

(** The "Submit Quiz" button, when it is enabled. *)
Definition submit (st : QuizState) : QuizState :=
  {| userAnswers := userAnswers st; showResults := true |}.

(** The "Retake Quiz" button. *)
Definition retake (st : QuizState) : QuizState :=
  {| userAnswers := ∅; showResults := false |}.

(** The states the widget reaches for a given quiz: an option button of a
    rendered question passes that question's id and the option's position;
    the submit button is shown before the results and works when enabled;
    the retake button is shown with the results. *)
Inductive reachable (questions : list QuizQuestion) : QuizState -> Prop :=
| reach_initial : reachable questions quiz_initial
| reach_select q optIdx st :
    reachable questions st ->
    q ∈ questions ->
    (optIdx < length (options q))%nat ->
    reachable questions (handleOptionSelect (id q) (Z.of_nat optIdx) st)
| reach_submit st :
    reachable questions st ->
    showResults st = false ->
    submit_disabled questions st = false ->
    reachable questions (submit st)
| reach_retake st :
    reachable questions st ->
    showResults st = true ->
    reachable questions (retake st).

(** A sequence of option selections, in the order they are made. *)
Definition select_all (sels : list (Z * Z)) (st : QuizState) : QuizState :=
  fold_left (fun st s => handleOptionSelect (fst s) (snd s) st) sels st.

End Dashboard.

(* ===================================================================== *)
(** ** Vocabulary of the properties *)
(* ===================================================================== *)

Module Props.
Import JS Types GeminiService App UploadSection Dashboard.

(** The number of questions whose recorded answer is the correct index. *)
Definition correct_count (questions : list QuizQuestion) (answers : gmap Z Z)
  : nat :=
  length (filter (fun q => answers !! id q = Some (correctAnswerIndex q))
                 questions).

(** Every question has a recorded answer. *)
Definition all_answered (questions : list QuizQuestion) (st : QuizState)
  : Prop :=
  ∀ q, q ∈ questions -> is_Some (userAnswers st !! id q).

(** The band as a function of the percentage alone. *)
Definition band_of_percentage (percentage : float) : Feedback :=
  if (90 <=? percentage)%float then outstanding
  else if (70 <=? percentage)%float then great_progress
  else if (50 <=? percentage)%float then good_start
  else needs_review.

(** The band of an exact percentage [100 * score / total], thresholds
    inclusive at the lower bound. *)
Definition exact_band (score total : nat) : Feedback :=
  if (90 * total <=? 100 * score)%nat then outstanding
  else if (70 * total <=? 100 * score)%nat then great_progress
  else if (50 * total <=? 100 * score)%nat then good_start
  else needs_review.

(** The three threshold tests of [getPerformanceFeedback] agree with exact
    integer arithmetic on the pair [(score, total)]. *)
Definition thresholds_exact (score total : nat) : bool :=
  let percentage :=
    ((number_of_nat score / number_of_nat total) * 100)%float in
  let s := N.of_nat score in
  let t := N.of_nat total in
  (Bool.eqb (90 <=? percentage)%float (90 * t <=? 100 * s)%N
   && Bool.eqb (70 <=? percentage)%float (70 * t <=? 100 * s)%N
   && Bool.eqb (50 <=? percentage)%float (50 * t <=? 100 * s)%N)%bool.

(** The same for every quiz of at most [n] questions and every score. *)
Definition thresholds_exact_upto (n : nat) : bool :=
  forallb (fun total =>
             forallb (fun score => thresholds_exact score total)
                     (seq 0 (S total)))
          (seq 1 n).

(** [m] is the text of one of the recognized markers. *)
Definition is_marker (m : jsstring) : Prop :=
  ∃ p, p ∈ markers ∧ match_atoms p m = Some [].

(** The text of a marker, by the alternative that matches it. *)
Inductive marker_shape : jsstring -> Prop :=
| shape_youtu_be x :
    is_line_terminator x = false ->
    marker_shape (str "youtu" ++ [x] ++ str "be/")
| shape_v : marker_shape (str "v/")
| shape_u w : is_word w = true -> marker_shape (str "u/" ++ [w] ++ str "/")
| shape_embed : marker_shape (str "embed/")
| shape_watch : marker_shape (str "watch?v=")
| shape_amp_v : marker_shape (str "&v=").

(** No line terminator occurs in [s]. *)
Definition single_line (s : jsstring) : Prop :=
  Forall (fun c => is_line_terminator c = false) s.

(** A number that is one of the indices 0, 1, 2, 3. *)
Definition index_below_4 (x : float) : bool :=
  existsb (PrimFloat.eqb x) [0; 1; 2; 3]%float.

(** A question with exactly 4 options and a correct index in [0,4). *)
Definition question_well_formed (q : JSON) : bool :=
  match get (str "options") q, get (str "correctAnswerIndex") q with
  | Some (JArray opts), Some (JNumber i) =>
      (Nat.eqb (length opts) 4 && index_below_4 i)%bool
  | _, _ => false
  end.

Definition quiz_well_formed (v : JSON) : bool :=
  match v with
  | JArray qs => forallb question_well_formed qs
  | _ => false
  end.

(** The StudyBundle of a state: its seven artifacts. *)
Definition bundle (s : AppState)
  : jsstring * JSON * JSON * option JSON * JSON * JSON * jsstring :=
  (summary s, chapters s, formulas s, strategy s, quiz s, flashcards s,
   cheatSheet s).

Definition bundle_of (r : Artifacts)
  : jsstring * JSON * JSON * option JSON * JSON * JSON * jsstring :=
  (a_summary r, a_chapters r, a_formulas r, Some (a_strategy r), a_quiz r,
   a_flashcards r, a_cheatSheet r).

(** [s'] is [s] with an error annotation and the view set to Upload, and no
    other change. *)
Definition only_error_annotated (s s' : AppState) : Prop :=
  s' = {| view := UPLOAD; user := user s; lecture := lecture s;
          examType := examType s; timeFrame := timeFrame s;
          summary := summary s; chapters := chapters s;
          formulas := formulas s; strategy := strategy s;
          quiz := quiz s; flashcards := flashcards s;
          cheatSheet := cheatSheet s; chatHistory := chatHistory s;
          error := error s'; successMessage := successMessage s |}.

End Props.

(* ===================================================================== *)
(** ** Sample collaborators and data *)
(* ===================================================================== *)

Module Samples.
Import JS Types GeminiService App UploadSection Dashboard.

(** A JSON text written with single quotes standing for the double quotes. *)
Definition json_text (s : string) : jsstring :=
  map (fun c => if N.eqb c 39 then 34%N else c) (str s).

(** A quiz payload whose only question has two options and index 7. *)
Definition short_quiz_text : jsstring :=
  json_text "[{'id':1,'question':'What is supervised learning?','options':['Learning with an answer key','Clustering'],'correctAnswerIndex':7,'explanation':'The teacher provides the answers.'}]".

Definition short_quiz : JSON :=
  JArray [JObject [
    (str "id", JNumber 1);
    (str "question", JString (str "What is supervised learning?"));
    (str "options", JArray [JString (str "Learning with an answer key");
                            JString (str "Clustering")]);
    (str "correctAnswerIndex", JNumber 7);
    (str "explanation", JString (str "The teacher provides the answers."))]].

(** A quiz payload whose only question has four options and index 0. *)
Definition good_quiz_text : jsstring :=
  json_text "[{'id':1,'question':'What is supervised learning?','options':['Learning with an answer key','Clustering','Sorting','Hashing'],'correctAnswerIndex':0,'explanation':'The teacher provides the answers.'}]".

Definition good_quiz : JSON :=
  JArray [JObject [
    (str "id", JNumber 1);
    (str "question", JString (str "What is supervised learning?"));
    (str "options", JArray [JString (str "Learning with an answer key");
                            JString (str "Clustering");
                            JString (str "Sorting");
                            JString (str "Hashing")]);
    (str "correctAnswerIndex", JNumber 0);
    (str "explanation", JString (str "The teacher provides the answers."))]].

(** [JSON.parse] on the four texts the samples use: the empty array, the
    empty object and the two quiz payloads above. It is a table, not a
    parser: any other text is treated as unparsable, and the samples never
    submit one. *)
Definition JSON_parse_table (s : jsstring) : option JSON :=
  if decide (s = str "[]") then Some (JArray [])
  else if decide (s = str "{}") then Some (JObject [])
  else if decide (s = short_quiz_text) then Some short_quiz
  else if decide (s = good_quiz_text) then Some good_quiz
  else None.

Definition service_unavailable : Error := mkError (str "503 Service Unavailable").

(** An AI collaborator that rejects the requests selected by [down] and
    answers the others: prose for the free-text prompts, [quiz_text] for the
    quiz, an empty array or object for the other structured prompts. *)
Definition ai_sample (down : Contents -> bool) (quiz_text : jsstring)
    (r : Request) : Promise Response :=
  if down (contents r) then Rejected service_unavailable
  else
    Fulfilled {| response_text :=
      Some match contents r with
           | SummaryPrompt _ => str "Supervised learning uses labelled data."
           | CheatSheetPrompt _ => str "**Supervised**: labels. **Unsupervised**: none."
           | ChatPrompt _ _ => str "Clustering groups unlabelled data."
           | YouTubePrompt _ _ => str "Welcome to this lecture."
           | QuizPrompt _ => quiz_text
           | StrategyPrompt _ _ _ => str "{}"
           | ChaptersPrompt _ | FormulasPrompt _ | FlashcardsPrompt _ => str "[]"
           end |}.

Definition nothing_down (c : Contents) : bool := false.
Definition all_down (c : Contents) : bool := true.
Definition summary_down (c : Contents) : bool :=
  match c with SummaryPrompt _ => true | _ => false end.
Definition cheatSheet_down (c : Contents) : bool :=
  match c with CheatSheetPrompt _ => true | _ => false end.
Definition chat_down (c : Contents) : bool :=
  match c with ChatPrompt _ _ => true | _ => false end.
Definition quiz_down (c : Contents) : bool :=
  match c with QuizPrompt _ => true | _ => false end.

Definition demo_text : jsstring :=
  str "Welcome to this lecture on Introduction to Machine Learning. Today we dive into supervised and unsupervised learning.".

Definition jane : User :=
  {| user_id := str "demo-user"; email := str "a@b.com";
     name := Some (str "Jane") |}.

(** The state after login, on the upload screen. *)
Definition signed_in : AppState := handleLogin jane initial_state.

(** The dashboard state after a successful run on the demo text. *)
Definition on_dashboard : AppState :=
  handleStartProcessing (ai_sample nothing_down good_quiz_text)
    JSON_parse_table demo_text (str "Lecture 101") UNIVERSITY ONE_WEEK None
    1700000000000 signed_in.

(** The state after a run in which the summary request is rejected. *)
Definition after_failed_processing : AppState :=
  handleStartProcessing (ai_sample summary_down good_quiz_text)
    JSON_parse_table demo_text (str "Lecture 101") COMPETITIVE ONE_DAY None
    1700000000000 signed_in.

(** The state after a run in which only the cheat sheet request is
    rejected. *)
Definition after_cheatSheet_failure : AppState :=
  handleStartProcessing (ai_sample cheatSheet_down good_quiz_text)
    JSON_parse_table demo_text (str "Lecture 101") UNIVERSITY ONE_WEEK None
    1700000000000 signed_in.

Definition sample_clock : Clock :=
  {| user_now := 1700000000000; user_date := 1700000000000;
     reply_now := 1700000002000; reply_date := 1700000002000 |}.

Definition asking : ChatState :=
  {| chatMessages := [welcome_message 1700000000000];
     chatInput := str "What is clustering?";
     isChatLoading := false |}.

Definition mk_question (i correct : Z) : QuizQuestion :=
  {| id := i; question := str "Which option is right?";
     options := [str "A"; str "B"; str "C"; str "D"];
     correctAnswerIndex := correct; explanation := str "See the lecture." |}.

(** Ten questions with ids 1 to 10. *)
Definition ten_questions : list QuizQuestion :=
  map (fun i => mk_question i (Z.rem i 4)) [1; 2; 3; 4; 5; 6; 7; 8; 9; 10]%Z.

(** Option 0 chosen for questions 1 to 9. *)
Definition nine_selections : list (Z * Z) :=
  map (fun i => (i, 0%Z)) [1; 2; 3; 4; 5; 6; 7; 8; 9]%Z.

Definition nine_answered : QuizState := select_all nine_selections quiz_initial.

(** Three selections, and the same three made in another order. *)
Definition three_selections : list (Z * Z) := [(1, 1); (2, 0); (4, 0)]%Z.
Definition three_selections_reordered : list (Z * Z) :=
  [(4, 0); (1, 1); (2, 0)]%Z.

(** Two questions that carry the same id. *)
Definition twin_questions : list QuizQuestion :=
  [mk_question 1 0; mk_question 1 2].

Definition twin_answered : QuizState :=
  handleOptionSelect 1 0 quiz_initial.

Definition three_cards : list Flashcard :=
  [ {| card_id := 1; front := str "Supervised?"; back := str "Labels" |};
    {| card_id := 2; front := str "Unsupervised?"; back := str "No labels" |};
    {| card_id := 3; front := str "K-Means?"; back := str "Clustering" |} ].

End Samples.

(* ===================================================================== *)
(** ** components/UploadSection.tsx: starting a run *)
(* ===================================================================== *)

Module UploadFlow.
Import JS Types GeminiService UploadSection.

Inductive Tab := text_tab | file_tab | youtube_tab.

Record UploadState := {
  up_text : jsstring;
  ytUrl : jsstring;
  up_examType : ExamType;
  up_timeFrame : TimeFrame;
  activeTab : Tab;
  isTranscribing : bool;
  statusMsg : jsstring
}.

(** What a handler does besides updating the state: nothing, an [alert], or
    a call of [onStart]. *)
Inductive Effect :=
| NoEffect
| Alert (msg : jsstring)
| OnStart (text title : jsstring) (et : ExamType) (tf : TimeFrame)
          (videoId : option jsstring).

Definition invalid_url_alert : jsstring := str "Invalid YouTube URL".
Definition analysis_failed_alert : jsstring :=
  str "Failed to analyze video. Please check the link and try again.".

(** The state after the [finally] of [handleYouTubeProcess]. *)
Definition transcribing_done (st : UploadState) : UploadState :=
  {| up_text := up_text st; ytUrl := ytUrl st;
     up_examType := up_examType st; up_timeFrame := up_timeFrame st;
     activeTab := activeTab st; isTranscribing := false; statusMsg := [] |}.

Section Collaborators.

Variable generateContent : Request -> Promise Response.

(** The metadata lookup, [fetch] followed by [response.json()]: it fulfils
    with the [title] member of the answer ([None] when there is none) or
    rejects. *)
Variable noembed : jsstring -> Promise (option jsstring).

Definition fetchVideoTitle (url : jsstring) : Promise (option jsstring) :=
  try_catch
    (let/await data_title := noembed url in
     Fulfilled (match data_title with
                | Some t => if truthy t then Some t else None
                | None => None
                end))
    (fun error => Fulfilled None).

Definition handleYouTubeProcess (st : UploadState) : UploadState * Effect :=
  if negb (truthy (ytUrl st)) then (st, NoEffect)
  else
    match extractVideoId (ytUrl st) with
    | None => (st, Alert invalid_url_alert)
    | Some videoId =>
        let attempt : Promise Effect :=
          let/await realTitle := fetchVideoTitle (ytUrl st) in
          let displayTitle := or_else realTitle (str "YouTube Lecture") in
          let/await transcript :=
            generateYouTubeTranscript generateContent (ytUrl st) realTitle in
          Fulfilled (OnStart transcript displayTitle (up_examType st)
                             (up_timeFrame st) (Some videoId)) in
        (transcribing_done st,
         match attempt with
         | Fulfilled effect => effect
         | Rejected error => Alert analysis_failed_alert
         end)
    end.

(** The [disabled] attribute of the start button. *)
Definition start_disabled (st : UploadState) : bool :=
  match activeTab st with
  | youtube_tab => (negb (truthy (ytUrl st)) || isTranscribing st)%bool
  | _ => Nat.ltb (strlen (up_text st)) 50
  end.

(** The [onClick] of the start button. *)
Definition start_click (st : UploadState) : UploadState * Effect :=
  match activeTab st with
  | youtube_tab => handleYouTubeProcess st
  | _ => (st, OnStart (up_text st) (str "Lecture 101") (up_examType st)
                      (up_timeFrame st) None)
  end.

End Collaborators.

End UploadFlow.

(* ===================================================================== *)
(** ** services/emailService.ts *)
(* ===================================================================== *)

Module EmailService.
Import JS.

Definition HARDCODED_SERVICE_ID : jsstring := [].
Definition HARDCODED_TEMPLATE_ID : jsstring := [].
Definition HARDCODED_PUBLIC_KEY : jsstring := [].

(** [a || b] where [a] is a string and [b] a string or [undefined]. *)
Definition or_undefined (a : jsstring) (b : option jsstring)
  : option jsstring :=
  if truthy a then Some a else b.

Record EmailTemplate := { subject : jsstring; body : jsstring }.

Definition nl : jsstring := [10%N].

(** The two emoji of the template, as surrogate pairs. *)
Definition party_popper : jsstring := [55356; 57225]%N.
Definition rocket : jsstring := [55357; 56960]%N.

Definition getWelcomeEmailTemplate (studentName : jsstring) : EmailTemplate :=
  {| subject := party_popper ++ str " Welcome to ReviseRight, "
                ++ studentName ++ str "!";
     body := nl ++ str "Hi " ++ studentName ++ str "," ++ nl ++ nl
       ++ str "On behalf of the whole team, a huge welcome to ReviseRight! We're thrilled to have you join our community and start your learning journey with us."
       ++ nl ++ nl
       ++ rocket ++ str " Your Quick-Start Checklist:" ++ nl
       ++ str "1. Complete Your Profile in settings." ++ nl
       ++ str "2. Upload your first lecture to see the AI magic happen!"
       ++ nl ++ nl
       ++ str "We are here to support you every step of the way."
       ++ nl ++ nl
       ++ str "Happy learning!" ++ nl ++ nl
       ++ str "The ReviseRight Team" ++ nl
       ++ str "https://reviseright.com" ++ nl ++ str "  " |}.

Record EmailParams := {
  to_email : jsstring;
  to_name : jsstring;
  p_subject : jsstring;
  p_message : jsstring
}.

Record EmailResult := {
  success : bool;
  r_subject : jsstring;
  r_body : jsstring;
  simulated : bool
}.

Section Environment.

(** [process.env[key]] and [import.meta.env[key]]: [None] when the member is
    undefined or the object cannot be reached. *)
Variable process_env : jsstring -> option jsstring.
Variable import_meta_env : jsstring -> option jsstring.

(** [emailjs.send(serviceId, templateId, params, publicKey)]. *)
Variable emailjs_send :
  jsstring -> jsstring -> EmailParams -> jsstring -> Promise unit.

Definition getEnvVar (key : jsstring) : option jsstring :=
  match process_env key with
  | Some v =>
      if truthy v then Some v
      else match import_meta_env (str "VITE_" ++ key) with
           | Some w => if truthy w then Some w else None
           | None => None
           end
  | None =>
      match import_meta_env (str "VITE_" ++ key) with
      | Some w => if truthy w then Some w else None
      | None => None
      end
  end.

Definition SERVICE_ID : option jsstring :=
  or_undefined HARDCODED_SERVICE_ID (getEnvVar (str "EMAILJS_SERVICE_ID")).
Definition TEMPLATE_ID : option jsstring :=
  or_undefined HARDCODED_TEMPLATE_ID (getEnvVar (str "EMAILJS_TEMPLATE_ID")).
Definition PUBLIC_KEY : option jsstring :=
  or_undefined HARDCODED_PUBLIC_KEY (getEnvVar (str "EMAILJS_PUBLIC_KEY")).

(** The three values when [SERVICE_ID && TEMPLATE_ID && PUBLIC_KEY] is
    truthy. *)
Definition configured : option (jsstring * jsstring * jsstring) :=
  match SERVICE_ID, TEMPLATE_ID, PUBLIC_KEY with
  | Some s, Some t, Some k =>
      if (truthy s && truthy t && truthy k)%bool then Some (s, t, k) else None
  | _, _, _ => None
  end.

Definition simulation (t : EmailTemplate) : EmailResult :=
  {| success := true; r_subject := subject t; r_body := body t;
     simulated := true |}.

Definition sendWelcomeEmail (email name : jsstring) : Promise EmailResult :=
  let t := getWelcomeEmailTemplate name in
  match configured with
  | Some (s, tid, k) =>
      match emailjs_send s tid
              {| to_email := email; to_name := name;
                 p_subject := subject t; p_message := body t |} k with
      | Fulfilled _ =>
          Fulfilled {| success := true; r_subject := subject t;
                       r_body := body t; simulated := false |}
      | Rejected error => Fulfilled (simulation t)
      end
  | None => Fulfilled (simulation t)
  end.

End Environment.

End EmailService.

(* ===================================================================== *)
(** ** components/Auth.tsx *)
(* ===================================================================== *)

Module Auth.
Import JS Types EmailService.

Record WelcomeData := {
  w_subject : jsstring;
  w_body : jsstring;
  w_simulated : bool
}.

Record AuthState := {
  isSignUp : bool;
  a_email : jsstring;
  password : jsstring;
  a_name : jsstring;
  loading : bool;
  a_error : option jsstring;
  showWelcome : bool;
  welcomeData : option WelcomeData;
  pendingUser : option User
}.

(** The user record of the identity backend after a sign-up: [email] may be
    missing. *)
Record BackendUser := {
  b_id : jsstring;
  b_email : option jsstring
}.

(** The user record after a password sign-in: the code takes [email] as
    present ([data.user.email!]). *)
Record SignedInUser := {
  s_id : jsstring;
  s_email : jsstring;
  s_full_name : option jsstring
}.

(** The answer of [signUp] and [signInWithPassword]: [data.user] and
    [error]. A thrown or returned error carries its [message], possibly
    empty. *)
Record AuthResponse (U : Type) := {
  data_user : option U;
  resp_error : option Error
}.
Arguments data_user {U}.
Arguments resp_error {U}.

Definition default_auth_error : jsstring :=
  str "An error occurred during authentication".
Definition unexpected_response : jsstring :=
  str "User created, but unexpected response. Please try signing in.".

Definition welcome_of (r : EmailResult) : WelcomeData :=
  {| w_subject := r_subject r; w_body := r_body r;
     w_simulated := simulated r |}.

Definition set_welcome (w : WelcomeData) (u : User) (ld : bool)
    (err : option jsstring) (st : AuthState) : AuthState :=
  {| isSignUp := isSignUp st; a_email := a_email st; password := password st;
     a_name := a_name st; loading := ld; a_error := err;
     showWelcome := true; welcomeData := Some w; pendingUser := Some u |}.

Definition set_status (ld : bool) (err : option jsstring) (st : AuthState)
  : AuthState :=
  {| isSignUp := isSignUp st; a_email := a_email st; password := password st;
     a_name := a_name st; loading := ld; a_error := err;
     showWelcome := showWelcome st; welcomeData := welcomeData st;
     pendingUser := pendingUser st |}.

Section Collaborators.

Variable isSupabaseConfigured : bool.
Variable signUp :
  jsstring -> jsstring -> jsstring -> Promise (AuthResponse BackendUser).
Variable signInWithPassword :
  jsstring -> jsstring -> Promise (AuthResponse SignedInUser).
Variable sendWelcomeEmail : jsstring -> jsstring -> Promise EmailResult.

(** [handleAuth], to the state after its last update, with the user passed
    to [onLogin] if it is called. *)
Definition handleAuth (st : AuthState) : AuthState * option User :=
  if negb isSupabaseConfigured then
    let demoName := or_else (Some (a_name st)) (str "Demo Student") in
    let demoUser := {| user_id := str "demo-user-123"; email := a_email st;
                       name := Some demoName |} in
    if isSignUp st then
      match sendWelcomeEmail (a_email st) demoName with
      | Fulfilled emailResult =>
          (set_welcome (welcome_of emailResult) demoUser false None st, None)
      | Rejected error => (set_status true None st, None)
      end
    else (set_status false None st, Some demoUser)
  else if isSignUp st then
    let attempt : Promise (AuthState * option User) :=
      let/await r := signUp (a_email st) (password st) (a_name st) in
      match resp_error r with
      | Some error => Rejected error
      | None =>
          match data_user r with
          | Some u =>
              let registeredEmail := or_else (b_email u) (a_email st) in
              let registeredName := or_else (Some (a_name st)) (str "Student") in
              let/await emailResult :=
                sendWelcomeEmail registeredEmail registeredName in
              Fulfilled
                (set_welcome (welcome_of emailResult)
                   {| user_id := b_id u; email := registeredEmail;
                      name := Some registeredName |} true None st, None)
          | None =>
              Fulfilled (set_status true (Some unexpected_response) st, None)
          end
      end in
    match attempt with
    | Fulfilled result => result
    | Rejected err =>
        (set_status true (Some (or_else (Some (message err))
                                        default_auth_error)) st, None)
    end
  else
    let attempt : Promise (AuthState * option User) :=
      let/await r := signInWithPassword (a_email st) (password st) in
      match resp_error r with
      | Some error => Rejected error
      | None =>
          match data_user r with
          | Some u =>
              Fulfilled (set_status false None st,
                         Some {| user_id := s_id u; email := s_email u;
                                 name := s_full_name u |})
          | None => Fulfilled (set_status false None st, None)
          end
      end in
    match attempt with
    | Fulfilled result => result
    | Rejected err =>
        (set_status false (Some (or_else (Some (message err))
                                         default_auth_error)) st, None)
    end.

End Collaborators.

(** [handleContinue]: the user passed to [onLogin], if any. *)
Definition handleContinue (st : AuthState) : option User := pendingUser st.

End Auth.

(* ===================================================================== *)
(** ** App.tsx: the updates as events *)
(* ===================================================================== *)

Module Machine.
Import JS Types GeminiService App.

(** The listener passed to [onAuthStateChange]. The user is the one built
    from the session. *)
Definition onAuthStateChange (session : option User) (prev : AppState)
  : AppState :=
  match session with
  | Some u =>
      {| view := match view prev with AUTH => UPLOAD | v => v end;
         user := Some u; lecture := lecture prev;
         examType := examType prev; timeFrame := timeFrame prev;
         summary := summary prev; chapters := chapters prev;
         formulas := formulas prev; strategy := strategy prev;
         quiz := quiz prev; flashcards := flashcards prev;
         cheatSheet := cheatSheet prev; chatHistory := chatHistory prev;
         error := error prev; successMessage := successMessage prev |}
  | None =>
      {| view := AUTH; user := None; lecture := lecture prev;
         examType := examType prev; timeFrame := timeFrame prev;
         summary := summary prev; chapters := chapters prev;
         formulas := formulas prev; strategy := strategy prev;
         quiz := quiz prev; flashcards := flashcards prev;
         cheatSheet := cheatSheet prev; chatHistory := chatHistory prev;
         error := error prev; successMessage := successMessage prev |}
  end.

(** [checkSession] at mount: with a session the user is set and the view is
    Upload; without one, or on an error, nothing changes. *)
Definition checkSession (session : option User) (prev : AppState)
  : AppState :=
  match session with
  | Some u => handleLogin u prev
  | None => prev
  end.

(** The close button of the error toast. *)
Definition dismiss_error (prev : AppState) : AppState :=
  {| view := view prev; user := user prev; lecture := lecture prev;
     examType := examType prev; timeFrame := timeFrame prev;
     summary := summary prev; chapters := chapters prev;
     formulas := formulas prev; strategy := strategy prev;
     quiz := quiz prev; flashcards := flashcards prev;
     cheatSheet := cheatSheet prev; chatHistory := chatHistory prev;
     error := None; successMessage := successMessage prev |}.

(** A fan-out in flight: what it was issued for. *)
Record Submission := {
  sub_text : jsstring;
  sub_examType : ExamType;
  sub_timeFrame : TimeFrame
}.

(** The application state together with the fan-outs not yet settled. *)
Record Config := { app : AppState; in_flight : list Submission }.

Definition initial_config : Config :=
  {| app := initial_state; in_flight := [] |}.

Inductive Event :=
| EvLogin (u : User)
| EvSignOut
| EvReset
| EvSubmit (text title : jsstring) (et : ExamType) (tf : TimeFrame)
           (vid : option jsstring)
| EvSettle (i : nat) (now : N)
| EvSession (session : option User)
| EvRestore (session : option User)
| EvDismiss.

Section Collaborators.

Variable generateContent : Request -> Promise Response.
Variable JSON_parse : jsstring -> option JSON.

(** The update a settled fan-out applies, to the state of that moment. *)
Definition settle (sub : Submission) (now : N) (s : AppState) : AppState :=
  match fan_out generateContent JSON_parse (sub_text sub) (sub_examType sub)
          (sub_timeFrame sub) with
  | Fulfilled r => show_dashboard r now s
  | Rejected error => back_to_upload s
  end.

(** One event. Every update is a function of the state of the moment it is
    applied to; nothing stops an event from arriving in any view. *)
Definition step (c : Config) (e : Event) : Config :=
  match e with
  | EvLogin u => {| app := handleLogin u (app c); in_flight := in_flight c |}
  | EvSignOut => {| app := handleSignOut (app c); in_flight := in_flight c |}
  | EvReset => {| app := handleReset (app c); in_flight := in_flight c |}
  | EvSubmit text title et tf vid =>
      {| app := start_processing text title et tf vid (app c);
         in_flight := in_flight c
                      ++ [{| sub_text := text; sub_examType := et;
                             sub_timeFrame := tf |}] |}
  | EvSettle i now =>
      match in_flight c !! i with
      | Some sub => {| app := settle sub now (app c);
                       in_flight := delete i (in_flight c) |}
      | None => c
      end
  | EvSession session =>
      {| app := onAuthStateChange session (app c); in_flight := in_flight c |}
  | EvRestore session =>
      {| app := checkSession session (app c); in_flight := in_flight c |}
  | EvDismiss => {| app := dismiss_error (app c); in_flight := in_flight c |}
  end.

Definition run (events : list Event) (c : Config) : Config :=
  fold_left step events c.

End Collaborators.

End Machine.

(* ===================================================================== *)
(** ** components/Dashboard.tsx: sessions of the widgets *)
(* ===================================================================== *)

Module Sessions.
Import JS Types GeminiService Dashboard.

(** The buttons of the flashcard viewer; a click on the card flips it. *)
Inductive Press := PressNext | PressPrev | PressFlip.

Definition press (cards : list Flashcard) (st : DeckState) (p : Press)
  : DeckState :=
  match p with
  | PressNext => handleNext cards st
  | PressPrev => handlePrev cards st
  | PressFlip => {| currentIndex := currentIndex st;
                    flipped := negb (flipped st) |}
  end.

Definition deck_initial : DeckState := {| currentIndex := 0; flipped := false |}.

(** Typing in the chat box. *)
Definition type_input (input : jsstring) (st : ChatState) : ChatState :=
  {| chatMessages := chatMessages st; chatInput := input;
     isChatLoading := isChatLoading st |}.

(** The chat state of a freshly mounted dashboard. *)
Definition chat_initial (s : AppState) : ChatState :=
  {| chatMessages := chatHistory s; chatInput := []; isChatLoading := false |}.

Section Collaborators.

Variable generateContent : Request -> Promise Response.

(** Turns taken one after the other: each one types a text and sends it. *)
Definition take_turns (lecture : option LectureData)
    (turns : list (jsstring * Clock)) (st : ChatState) : ChatState :=
  fold_left (fun st t => handleSendMessage generateContent lecture (snd t)
                           (type_input (fst t) st))
            turns st.

End Collaborators.

(** The senders of a history, in order. *)
Definition senders (msgs : list ChatMessage) : list Sender := map sender msgs.

(** Whether a list of senders alternates, starting with [expect] and ending
    with an assistant message. *)
Fixpoint alternating (expect : Sender) (l : list Sender) : bool :=
  match l with
  | [] => match expect with user_sender => true | ai_sender => false end
  | s :: l' =>
      match expect, s with
      | ai_sender, ai_sender => alternating user_sender l'
      | user_sender, user_sender => alternating ai_sender l'
      | _, _ => false
      end
  end.

End Sessions.

(* ===================================================================== *)
(** ** Further vocabulary and samples *)
(* ===================================================================== *)

Module MoreProps.
Import JS Types GeminiService App UploadSection Dashboard Props.

(** No marker starts anywhere in [s]. *)
Fixpoint marker_free (s : jsstring) : bool :=
  match first_alternative markers s with
  | Some _ => false
  | None =>
      match s with
      | [] => true
      | _ :: s' => marker_free s'
      end
  end.

(** The text is empty or starts with one of [#], [&], [?]. *)
Definition ends_id (after : jsstring) : bool :=
  match after with
  | [] => true
  | c :: _ => negb (id_char c)
  end.

(** Only white space and line terminators. *)
Definition blank (s : jsstring) : Prop :=
  Forall (fun c => strips c = true) s.

(** The number of turns whose text is not blank. *)
Definition spoken (turns : list (jsstring * Dashboard.Clock)) : nat :=
  length (filter (fun t => truthy (trim (fst t)) = true) turns).

(** What holds of the application state in every configuration: nobody is
    signed in on the Auth view, and on the Dashboard view the seven artifacts
    are those of one fulfilled fan-out and the history is the greeting. *)
Definition app_invariant (generateContent : Request -> Promise Response)
    (JSON_parse : jsstring -> option JSON) (s : AppState) : Prop :=
  (view s = AUTH -> user s = None)
  ∧ (view s = DASHBOARD ->
     ∃ text et tf r now,
       fan_out generateContent JSON_parse text et tf = Fulfilled r
       ∧ bundle s = bundle_of r
       ∧ chatHistory s = [welcome_message now]).

End MoreProps.

Module MoreSamples.
Import JS Types GeminiService App UploadSection Dashboard Props Samples.

(** Two transcripts that differ only after their first 30000 code units. *)
Definition long_text_a : jsstring :=
  replicate (N.to_nat 30000) 97%N ++ str "A".
Definition long_text_b : jsstring :=
  replicate (N.to_nat 30000) 97%N ++ str "B".

Definition later_clock : Clock :=
  {| user_now := 1700000060000; user_date := 1700000060000;
     reply_now := 1700000061000; reply_date := 1700000061000 |}.

(** Three turns: a question, a blank line, another question. *)
Definition three_turns : list (jsstring * Clock) :=
  [(str "What is clustering?", sample_clock);
   (str "   ", sample_clock);
   (str "And regression?", later_clock)].

(** Option 0 chosen for all ten questions, then the quiz submitted. *)
Definition ten_selections : list (Z * Z) :=
  map (fun i => (i, 0%Z)) [1; 2; 3; 4; 5; 6; 7; 8; 9; 10]%Z.

Definition ten_answered : QuizState := select_all ten_selections quiz_initial.

Definition submitted : QuizState := submit ten_answered.

(** The upload screen with the demo text pasted, and with a video link. *)
Definition pasting : UploadFlow.UploadState :=
  {| UploadFlow.up_text := demo_text; UploadFlow.ytUrl := [];
     UploadFlow.up_examType := UNIVERSITY;
     UploadFlow.up_timeFrame := ONE_WEEK;
     UploadFlow.activeTab := UploadFlow.text_tab;
     UploadFlow.isTranscribing := false; UploadFlow.statusMsg := [] |}.


(** A metadata lookup that is down. *)
Definition noembed_down (url : jsstring) : Promise (option jsstring) :=
  Rejected service_unavailable.

(** An environment without any variable, and a provider that accepts every
    send. *)
Definition no_env (key : jsstring) : option jsstring := None.

Definition send_ok (service template : jsstring)
    (params : EmailService.EmailParams) (key : jsstring) : Promise unit :=
  Fulfilled tt.

(** The sign-up form filled in by Jane, and the sign-in form. *)
Definition signing_up : Auth.AuthState :=
  {| Auth.isSignUp := true; Auth.a_email := str "a@b.com";
     Auth.password := str "correct horse"; Auth.a_name := str "Jane";
     Auth.loading := false; Auth.a_error := None;
     Auth.showWelcome := false; Auth.welcomeData := None;
     Auth.pendingUser := None |}.

Definition signing_in : Auth.AuthState :=
  {| Auth.isSignUp := false; Auth.a_email := str "a@b.com";
     Auth.password := str "wrong"; Auth.a_name := [];
     Auth.loading := false; Auth.a_error := None;
     Auth.showWelcome := false; Auth.welcomeData := None;
     Auth.pendingUser := None |}.

Definition invalid_credentials : Error :=
  mkError (str "Invalid login credentials").

(** An identity backend that turns every request down. *)
Definition signUp_refused (email password name : jsstring)
  : Promise (Auth.AuthResponse Auth.BackendUser) :=
  Fulfilled {| Auth.data_user := None;
               Auth.resp_error := Some invalid_credentials |}.

Definition signIn_refused (email password : jsstring)
  : Promise (Auth.AuthResponse Auth.SignedInUser) :=
  Fulfilled {| Auth.data_user := None;
               Auth.resp_error := Some invalid_credentials |}.

End MoreSamples.

(* ===================================================================== *)
(** ** Properties *)
(* ===================================================================== *)

Import JS Types GeminiService App UploadSection Dashboard Props Samples.

(** *** Flashcard navigation *)

Section FlashcardNavigation.

Variable cards : list Flashcard.
Hypothesis non_empty : cards ≠ [].

Local Abbreviation N := (Z.of_nat (length cards)).

Lemma deck_size_pos : (0 < N)%Z.
Proof using non_empty. destruct cards; [done | simpl; lia]. Qed.



End FlashcardNavigation.



(** *** Quiz scoring *)

Lemma answered_correctly_spec (answers : gmap Z Z) (q : QuizQuestion) :
  answered_correctly answers q = true
  ↔ answers !! id q = Some (correctAnswerIndex q).
Proof.
  unfold answered_correctly. destruct (answers !! id q) as [a|].
  - rewrite Z.eqb_eq. split; [by intros -> | by intros [= ->]].
  - split; discriminate.
Qed.

(** The loop of [calculateScore] adds to its counter the number of correctly
    answered questions. *)
Lemma score_loop (answers : gmap Z Z) (questions : list QuizQuestion) (n : nat) :
  fold_left (fun score q => if answered_correctly answers q then S score
                            else score) questions n
  = n + correct_count questions answers.
Proof.
  unfold correct_count. revert n.
  induction questions as [|q qs IH]; intros n; simpl.
  - lia.
  - rewrite IH. rewrite filter_cons.
    destruct (answered_correctly answers q) eqn:Hq.
    + apply answered_correctly_spec in Hq. rewrite decide_True by done.
      simpl. lia.
    + rewrite decide_False; [done |].
      intros Hq'. apply answered_correctly_spec in Hq'. congruence.
Qed.

(** Selections made before the results are shown are all recorded; a later
    selection for the same question replaces the earlier one. *)
Lemma select_all_recorded (sels : list (Z * Z)) :
  select_all sels quiz_initial
  = {| userAnswers := list_to_map (reverse sels); showResults := false |}.
Proof.
  induction sels as [|s sels IH] using rev_ind.
  - done.
  - unfold select_all in *. rewrite fold_left_app, IH. simpl.
    unfold handleOptionSelect. simpl. by rewrite reverse_snoc.
Qed.

(** C5. For every quiz and every answer mapping, the score is the number of
    questions whose recorded answer is the correct index; and in whatever
    order the options of that mapping are selected, the widget records the
    same mapping and computes the same score. *)
Theorem calculateScore_counts_correct_answers
    (questions : list QuizQuestion) (answers : gmap Z Z)
    (sels : list (Z * Z)) :
  sels ≡ₚ map_to_list answers ->
  calculateScore questions answers = correct_count questions answers
  ∧ userAnswers (select_all sels quiz_initial) = answers
  ∧ calculateScore questions (userAnswers (select_all sels quiz_initial))
    = correct_count questions answers.
Proof.
  intros Hperm.
  assert (Hscore : ∀ m, calculateScore questions m = correct_count questions m).
  { intros m. unfold calculateScore. by rewrite score_loop. }
  assert (Hmap : userAnswers (select_all sels quiz_initial) = answers).
  { rewrite select_all_recorded. simpl.
    transitivity (list_to_map (map_to_list answers) : gmap Z Z);
      [| apply list_to_map_to_list].
    apply list_to_map_proper.
    - rewrite reverse_Permutation, Hperm. apply NoDup_fst_map_to_list.
    - by rewrite reverse_Permutation. }
  split; [apply Hscore |]. split; [exact Hmap |]. rewrite Hmap. apply Hscore.
Qed.

(** *** Quiz submission *)

Lemma reachable_dom (questions : list QuizQuestion) (st : QuizState) :
  reachable questions st ->
  dom (userAnswers st) ⊆ (list_to_set (id <$> questions) : gset Z).
Proof.
  induction 1 as [|q optIdx st Hst IH Hq Hopt|st Hst IH Hshow Hen|st Hst IH Hshow].
  - simpl. rewrite dom_empty_L. set_solver.
  - unfold handleOptionSelect. destruct (showResults st); [done |]. simpl.
    rewrite dom_insert_L. apply union_subseteq. split; [| done].
    apply singleton_subseteq_l, elem_of_list_to_set, list_elem_of_fmap. eauto.
  - done.
  - simpl. rewrite dom_empty_L. set_solver.
Qed.

Lemma size_ids_le (ids : list Z) :
  size (list_to_set ids : gset Z) ≤ length ids.
Proof.
  induction ids as [|i ids IH].
  - by rewrite list_to_set_nil, size_empty.
  - rewrite list_to_set_cons. simpl length. destruct (decide (i ∈ (list_to_set ids : gset Z))) as [Hin|Hnin].
    + rewrite subseteq_union_1_L by (by apply singleton_subseteq_l). lia.
    + rewrite size_union by (by apply disjoint_singleton_l).
      rewrite size_singleton. lia.
Qed.

Lemma all_answered_dom (questions : list QuizQuestion) (st : QuizState) :
  all_answered questions st
  ↔ (list_to_set (id <$> questions) : gset Z) ⊆ dom (userAnswers st).
Proof.
  unfold all_answered. split.
  - intros H i Hi. apply elem_of_list_to_set, list_elem_of_fmap in Hi as (q & -> & Hq).
    apply elem_of_dom. by apply H.
  - intros H q Hq. apply elem_of_dom, H, elem_of_list_to_set, list_elem_of_fmap. eauto.
Qed.

Lemma submit_disabled_size (questions : list QuizQuestion) (st : QuizState) :
  submit_disabled questions st = false
  ↔ length questions ≤ size (dom (userAnswers st)).
Proof.
  unfold submit_disabled. rewrite size_dom, Nat.ltb_ge. done.
Qed.

(** C7, amended. In every state the widget reaches, an enabled submit button
    means every question has a recorded answer. When the question ids are
    pairwise distinct the converse holds too: the button is enabled as soon
    as every question is answered; while one question is still unanswered
    (9 of 10) it is disabled, and recording that last answer enables it. *)
Theorem submit_enabled_iff_all_answered
    (questions : list QuizQuestion) (st : QuizState) :
  reachable questions st ->
  (submit_disabled questions st = false -> all_answered questions st)
  ∧ (NoDup (id <$> questions) ->
     (all_answered questions st -> submit_disabled questions st = false)
     ∧ ∀ (q0 : QuizQuestion) (optIdx : nat),
         q0 ∈ questions ->
         (optIdx < length (options q0))%nat ->
         showResults st = false ->
         userAnswers st !! id q0 = None ->
         (∀ q, q ∈ questions -> q ≠ q0 -> is_Some (userAnswers st !! id q)) ->
         submit_disabled questions st = true
         ∧ submit_disabled questions
             (handleOptionSelect (id q0) (Z.of_nat optIdx) st) = false).
Proof.
  intros Hreach.
  pose proof (reachable_dom questions st Hreach) as Hdom.
  assert (Honly : submit_disabled questions st = false -> all_answered questions st).
  { rewrite submit_disabled_size, all_answered_dom. intros Hsize.
    pose proof (size_ids_le (id <$> questions)) as Hle.
    rewrite length_fmap in Hle.
    rewrite (set_subseteq_size_eq _ _ Hdom); [done | lia]. }
  assert (Hif : ∀ st', NoDup (id <$> questions) ->
            all_answered questions st' -> submit_disabled questions st' = false).
  { intros st' Hnd. rewrite submit_disabled_size, all_answered_dom. intros Hsub.
    apply subseteq_size in Hsub.
    rewrite size_list_to_set, length_fmap in Hsub; done. }
  split; [exact Honly |]. intros Hnd. split; [apply Hif, Hnd |].
  intros q0 optIdx Hq0 Hopt Hshow Hnone Hothers. split.
  - apply not_false_iff_true. intros Hdis.
    apply Honly in Hdis. destruct (Hdis q0 Hq0) as [a Ha]. congruence.
  - apply Hif; [done |]. intros q Hq.
    unfold handleOptionSelect. rewrite Hshow. simpl.
    destruct (decide (id q = id q0)) as [->|Hne].
    + rewrite lookup_insert_eq. eauto.
    + rewrite lookup_insert_ne by done. apply Hothers; [done | congruence].
Qed.

Lemma calculateScore_counts_correct_answers_witness :
  calculateScore ten_questions
    (userAnswers (select_all three_selections_reordered quiz_initial))
  = correct_count ten_questions (list_to_map three_selections).
Proof.
  apply (calculateScore_counts_correct_answers ten_questions
           (list_to_map three_selections) three_selections_reordered).
  transitivity three_selections.
  - unfold three_selections_reordered, three_selections.
    apply (Permutation_cons_app [(1, 1); (2, 0)]%Z [] (4, 0)%Z).
    by rewrite app_nil_r.
  - symmetry. apply map_to_list_to_map.
    apply (bool_decide_unpack _). vm_compute. exact I.
Defined.

(** C7, as stated, fails on a quiz whose two questions carry the same id:
    after one selection every question has a recorded answer, and the submit
    button stays disabled. *)
Lemma submit_disabled_with_twin_ids :
  reachable twin_questions twin_answered
  ∧ all_answered twin_questions twin_answered
  ∧ submit_disabled twin_questions twin_answered = true.
Proof.
  split; [| split].
  - apply (reach_select twin_questions (mk_question 1 0) 0 quiz_initial).
    + apply reach_initial.
    + apply list_elem_of_here.
    + simpl. lia.
  - intros q Hq. unfold twin_questions in Hq.
    apply list_elem_of_In in Hq. simpl in Hq.
    destruct Hq as [<- | [<- | []]]; by eexists.
  - reflexivity.
Qed.

(** A run of selections of option 0 on questions of [ten_questions]. *)
Lemma reachable_nine_answered : reachable ten_questions nine_answered.
Proof.
  assert (Hstep : ∀ i st, (1 <= i <= 10)%Z ->
            reachable ten_questions st ->
            reachable ten_questions (handleOptionSelect i 0 st)).
  { intros i st Hi Hst.
    apply (reach_select ten_questions (mk_question i (Z.rem i 4)) 0 st Hst).
    - apply list_elem_of_In. unfold ten_questions.
      apply (in_map (fun i => mk_question i (Z.rem i 4))). simpl. lia.
    - simpl. lia. }
  unfold nine_answered, nine_selections, select_all. simpl.
  repeat (apply Hstep; [lia |]). apply reach_initial.
Qed.

Lemma submit_enabled_iff_all_answered_witness :
  submit_disabled ten_questions nine_answered = true
  ∧ submit_disabled ten_questions
      (handleOptionSelect 10 3 nine_answered) = false.
Proof.
  destruct (submit_enabled_iff_all_answered ten_questions nine_answered
              reachable_nine_answered) as [_ Hdistinct].
  assert (Hnd : NoDup (id <$> ten_questions)).
  { apply (bool_decide_unpack _). vm_compute. exact I. }
  destruct (Hdistinct Hnd) as [_ Hlast].
  apply (Hlast (mk_question 10 2) 3%nat).
  - apply list_elem_of_In. unfold ten_questions. simpl. tauto.
  - simpl. lia.
  - reflexivity.
  - vm_compute. reflexivity.
  - intros q Hq Hne. apply list_elem_of_In in Hq.
    unfold ten_questions in Hq. simpl in Hq.
    repeat (destruct Hq as [<- | Hq]; [eexists; vm_compute; reflexivity |]).
    destruct Hq as [<- | []]. by destruct Hne.
Defined.

(** *** Performance bands *)

Lemma thresholds_exact_200 : thresholds_exact_upto 200 = true.
Proof. vm_compute. reflexivity. Qed.

Lemma thresholds_exact_upto_spec (n score total : nat) :
  thresholds_exact_upto n = true ->
  0 < total ≤ n -> score ≤ total -> thresholds_exact score total = true.
Proof.
  unfold thresholds_exact_upto. intros H Ht Hs.
  rewrite forallb_forall in H.
  specialize (H total). rewrite forallb_forall in H.
  apply H; apply in_seq; lia.
Qed.

Lemma thresholds_exact_in_range (score total : nat) :
  0 < total ≤ 200 -> score ≤ total -> thresholds_exact score total = true.
Proof. apply thresholds_exact_upto_spec, thresholds_exact_200. Qed.

Lemma N_leb_of_nat (a b : nat) :
  (N.of_nat a <=? N.of_nat b)%N = (a <=? b)%nat.
Proof.
  destruct (Nat.leb_spec a b) as [H|H].
  - apply N.leb_le. lia.
  - apply N.leb_gt. lia.
Qed.

(** C6. The band is a function of the percentage alone, with thresholds
    inclusive at the lower bound: for every quiz of up to 200 questions and
    every score, the floating-point tests of the code pick the band of the
    exact percentage (at least 90: Outstanding Mastery, at least 70: Great
    Progress, at least 50: Good Start, otherwise Needs Review). Exactly 90%
    (9 of 10) is Outstanding Mastery and 89.99% (8999 of 10000) is Great
    Progress. *)
Theorem performance_band_thresholds :
  (∀ score total : float,
     getPerformanceFeedback score total
     = band_of_percentage (score / total * 100)%float)
  ∧ (∀ score total : nat,
       0 < total ≤ 200 -> score ≤ total ->
       getPerformanceFeedback (number_of_nat score) (number_of_nat total)
       = exact_band score total)
  ∧ getPerformanceFeedback 9 10 = outstanding
  ∧ getPerformanceFeedback 8999 10000 = great_progress
  ∧ fb_title outstanding = str "Outstanding Mastery!"
  ∧ fb_title great_progress = str "Great Progress"
  ∧ fb_title good_start = str "Good Start"
  ∧ fb_title needs_review = str "Needs Review".
Proof.
  split; [reflexivity |]. split; [| repeat split; reflexivity].
  intros score total Ht Hs.
  pose proof (thresholds_exact_in_range score total Ht Hs) as H.
  unfold thresholds_exact in H. cbv zeta in H.
  apply andb_prop in H as [H H50]. apply andb_prop in H as [H90 H70].
  apply Bool.eqb_prop in H90, H70, H50.
  unfold getPerformanceFeedback, exact_band. cbv zeta.
  rewrite H90, H70, H50.
  change 90%N with (N.of_nat 90). change 70%N with (N.of_nat 70).
  change 50%N with (N.of_nat 50). change 100%N with (N.of_nat 100).
  rewrite <- !Nat2N.inj_mul, !N_leb_of_nat. reflexivity.
Qed.

Lemma performance_band_thresholds_witness :
  getPerformanceFeedback (number_of_nat 7) (number_of_nat 10) = great_progress.
Proof.
  destruct performance_band_thresholds as (_ & Hexact & _).
  apply (Hexact 7 10); lia.
Defined.

(** *** Video id extraction *)

Lemma match_atoms_split (p : list Atom) (s rest : jsstring) :
  match_atoms p s = Some rest ->
  s = take (length p) s ++ rest ∧ length (take (length p) s) = length p
  ∧ match_atoms p (take (length p) s) = Some [].
Proof.
  revert s. induction p as [|a p IH]; intros s H; simpl in *.
  - inversion H. by rewrite take_0.
  - destruct s as [|c s]; [discriminate |].
    destruct (atom_matches a c) eqn:Ha; [| discriminate].
    destruct (IH s H) as (Hs & Hl & Hm). simpl. rewrite Ha.
    split; [by f_equal |]. split; [by f_equal | done].
Qed.

Lemma first_alternative_split (alts : list (list Atom)) (s g rest : jsstring) :
  first_alternative alts s = Some (g, rest) ->
  s = g ++ rest
  ∧ ∃ p, p ∈ alts ∧ match_atoms p g = Some [] ∧ length g = length p.
Proof.
  induction alts as [|p alts IH]; simpl; [discriminate |].
  destruct (match_atoms p s) as [r|] eqn:Hp.
  - intros [= <- <-]. destruct (match_atoms_split _ _ _ Hp) as (Hs & Hl & Hm).
    split; [done |]. exists p. split; [apply list_elem_of_here | done].
  - intros H. destruct (IH H) as (Hs & q & Hq & Hm). split; [done |].
    exists q. split; [by apply list_elem_of_further | done].
Qed.

(** Case analysis on the tests a matcher made on the text in [H]. *)
Ltac crunch H :=
  repeat (simpl in H; match type of H with
  | None = Some _ => discriminate H
  | context [match ?l with [] => _ | _ :: _ => _ end] =>
      is_var l; destruct l
  | context [N.eqb ?c ?n] =>
      is_var c; destruct (N.eqb_spec c n); subst
  | context [negb (is_line_terminator ?c)] =>
      is_var c; destruct (is_line_terminator c) eqn:?
  | context [is_word ?c] =>
      is_var c; destruct (is_word c) eqn:?
  end).

Ltac pick_shape :=
  first [ by apply shape_youtu_be | apply shape_v | by apply shape_u
        | apply shape_embed | apply shape_watch | apply shape_amp_v ].

Lemma first_alternative_shape (s g rest : jsstring) :
  first_alternative markers s = Some (g, rest) ->
  s = g ++ rest ∧ marker_shape g.
Proof.
  intros H. split; [by apply first_alternative_split in H as [? _] |].
  unfold markers, lit in H.
  crunch H; injection H as <- <-; pick_shape.
Qed.

Lemma is_marker_shape (m : jsstring) : is_marker m ↔ marker_shape m.
Proof.
  split.
  - intros (p & Hp & H). unfold markers in Hp.
    repeat (apply elem_of_cons in Hp as [-> | Hp];
            [unfold lit in H; crunch H; simpl in H; injection H as ->; pick_shape |]).
    by apply elem_of_nil in Hp.
  - intros H. unfold is_marker, markers.
    destruct H as [x Hx| |w Hw| | |];
      eexists; (split; [| shelve]);
      [ apply list_elem_of_here
      | apply list_elem_of_further, list_elem_of_here
      | do 2 apply list_elem_of_further; apply list_elem_of_here
      | do 3 apply list_elem_of_further; apply list_elem_of_here
      | do 4 apply list_elem_of_further; apply list_elem_of_here
      | do 5 apply list_elem_of_further; apply list_elem_of_here ].
    Unshelve. all: cbn; rewrite ?Hx, ?Hw; reflexivity.
Qed.

(** A marker at the head of a text is found there, whatever follows. *)
Lemma marker_at_head (g rest : jsstring) :
  marker_shape g -> first_alternative markers (g ++ rest) = Some (g, rest).
Proof.
  intros [x Hx| |w Hw| | |]; cbn; rewrite ?Hx, ?Hw; reflexivity.
Qed.

(** A marker that starts inside another one does not end before it. *)
Lemma markers_do_not_nest (pre t g rest0 g' r : jsstring) :
  first_alternative markers (pre ++ t) = Some (g, rest0) ->
  first_alternative markers t = Some (g', r) ->
  length r ≤ length rest0.
Proof.
  intros H H'.
  apply first_alternative_shape in H as [Hs Hg].
  apply first_alternative_shape in H' as [-> Hg'].
  destruct (decide (length g ≤ length pre + length g')) as [Hok|Hbad].
  { apply (f_equal length) in Hs. rewrite !length_app in Hs. lia. }
  exfalso.
  destruct Hg, Hg'; cbn in Hs, Hbad;
    do 8 (try (destruct pre as [|? pre]; cbn in Hs, Hbad; [| try lia]));
    try lia; simplify_eq; done.
Qed.

Lemma run_of_length (f : N -> bool) (s : jsstring) :
  length (run_of f s) ≤ length s.
Proof.
  induction s as [|c s IH]; simpl; [lia |].
  destruct (f c); simpl; lia.
Qed.

Lemma groups_at_Some (s : jsstring) (m : Match) :
  groups_at s = Some m ->
  ∃ rest, first_alternative markers s = Some (group1 m, rest)
          ∧ group2 m = run_of id_char rest.
Proof.
  unfold groups_at. destruct (first_alternative markers s) as [[g rest]|];
    [| discriminate].
  intros [= <-]. by exists rest.
Qed.

(** A match captures a marker that stands after a single-line prefix, and
    the run of id characters that follows it. *)
Lemma regExp_match_sound (s : jsstring) (m : Match) :
  regExp_match s = Some m ->
  ∃ pre rest, s = pre ++ group1 m ++ rest
              ∧ single_line pre
              ∧ first_alternative markers (group1 m ++ rest)
                = Some (group1 m, rest)
              ∧ group2 m = run_of id_char rest.
Proof.
  assert (Hhere : ∀ s, groups_at s = Some m ->
            ∃ pre rest, s = pre ++ group1 m ++ rest ∧ single_line pre
              ∧ first_alternative markers (group1 m ++ rest)
                = Some (group1 m, rest)
              ∧ group2 m = run_of id_char rest).
  { intros s0 H. apply groups_at_Some in H as (rest & Hfa & Hg2).
    pose proof (first_alternative_shape _ _ _ Hfa) as [Hs _].
    exists [], rest. rewrite <- Hs. repeat split; try done. apply Forall_nil_2. }
  induction s as [|c s IH]; simpl; [apply Hhere |].
  destruct (is_line_terminator c) eqn:Hc; simpl; [apply Hhere |].
  destruct (regExp_match s) as [m'|]; [| apply Hhere].
  intros [= ->]. destruct (IH eq_refl) as (pre & rest & -> & Hpre & Hfa & Hg2).
  exists (c :: pre), rest. repeat split; try done. by apply Forall_cons.
Qed.

(** The leading [.*] is greedy: the marker captured is the last one the
    pattern can reach, so the captured id is no longer than the text that
    follows any marker standing after a single-line prefix. *)
Lemma regExp_match_rightmost (pre s g rest0 : jsstring) :
  single_line pre ->
  first_alternative markers s = Some (g, rest0) ->
  ∃ m, regExp_match (pre ++ s) = Some m
       ∧ length (group2 m) ≤ length rest0.
Proof.
  intros Hpre Hfa.
  assert (Hgroups : ∃ m, groups_at s = Some m
                         ∧ length (group2 m) ≤ length rest0).
  { unfold groups_at. rewrite Hfa. eexists. split; [done |].
    simpl. apply run_of_length. }
  assert (Hhere : ∃ m, regExp_match s = Some m
                       ∧ length (group2 m) ≤ length rest0).
  { destruct s as [|c s]; simpl; [done |].
    destruct (is_line_terminator c); simpl; [done |].
    destruct (regExp_match s) as [m|] eqn:Hm; [| done].
    exists m. split; [done |].
    apply regExp_match_sound in Hm as (pre' & rest & -> & _ & Hfa' & ->).
    etransitivity; [apply run_of_length |].
    apply (markers_do_not_nest (c :: pre') _ _ _ _ _ Hfa Hfa'). }
  induction Hpre as [|c pre Hc Hpre IH]; [done |].
  simpl. rewrite Hc. simpl.
  destruct IH as (m & -> & Hm). by exists m.
Qed.

Import MoreProps.

(** The greedy run of id characters, and matching in a URL whose tail
    holds no further marker. *)

Lemma run_of_spec (f : N -> bool) (s : jsstring) :
  ∃ after, s = run_of f s ++ after
           ∧ Forall (fun c => f c = true) (run_of f s)
           ∧ (after = [] ∨ ∃ c rest, after = c :: rest ∧ f c = false).
Proof.
  induction s as [|c s (after & Hs & Hall & Hafter)]; simpl.
  - exists []. split; [done |]. split; [constructor | by left].
  - destruct (f c) eqn:Hc.
    + exists after. split; [simpl; by f_equal |].
      split; [by constructor | done].
    + exists (c :: s). split; [done |]. split; [constructor |].
      right. by exists c, s.
Qed.

Lemma run_of_app (f : N -> bool) (r after : jsstring) :
  Forall (fun c => f c = true) r ->
  (after = [] ∨ ∃ c rest, after = c :: rest ∧ f c = false) ->
  run_of f (r ++ after) = r.
Proof.
  intros Hr Hafter. induction Hr as [|c r Hc Hr IH]; simpl.
  - destruct Hafter as [-> | (c & rest & -> & Hc)]; simpl; [done |].
    by rewrite Hc.
  - by rewrite Hc, IH.
Qed.

Lemma marker_free_cons (c : N) (s : jsstring) :
  marker_free (c :: s)
  = match first_alternative markers (c :: s) with
    | Some _ => false
    | None => marker_free s
    end.
Proof. reflexivity. Qed.

Lemma regExp_match_cons (c : N) (s : jsstring) :
  regExp_match (c :: s)
  = if negb (is_line_terminator c) then
      match regExp_match s with
      | Some m => Some m
      | None => groups_at (c :: s)
      end
    else groups_at (c :: s).
Proof. reflexivity. Qed.

Lemma marker_free_no_match (s : jsstring) :
  marker_free s = true -> regExp_match s = None.
Proof.
  induction s as [|c s IH].
  - intros _. reflexivity.
  - rewrite marker_free_cons, regExp_match_cons.
    destruct (first_alternative markers (c :: s)) eqn:Hfa; [discriminate |].
    intros Hs. rewrite (IH Hs). unfold groups_at. rewrite Hfa.
    by destruct (negb (is_line_terminator c)).
Qed.

Lemma regExp_match_prefix (pre s : jsstring) (m : Match) :
  single_line pre ->
  regExp_match s = Some m -> regExp_match (pre ++ s) = Some m.
Proof.
  intros Hpre Hm. induction Hpre as [|c pre Hc Hpre IH]; [done |].
  rewrite <- app_comm_cons, regExp_match_cons. by rewrite Hc, IH.
Qed.

(** C10, amended. The two known URL shapes give the 11-character id; more
    generally, when a marker stands after a single-line prefix, no other
    marker starts after its first character, and it is followed by exactly 11
    characters other than [#], [&], [?] and then by the end of the URL or one
    of these three, those 11 characters are the id. Whatever is returned has
    11 characters, none of them [#], [&] or [?]. And a URL in which a
    recognized marker stands after a single-line prefix (no line terminator
    before it) and is followed by fewer than 11 characters is rejected. *)
Theorem extractVideoId_known_shapes :
  extractVideoId (str "https://www.youtube.com/watch?v=dQw4w9WgXcQ")
  = Some (str "dQw4w9WgXcQ")
  ∧ extractVideoId (str "https://youtu.be/dQw4w9WgXcQ")
    = Some (str "dQw4w9WgXcQ")
  ∧ strlen (str "dQw4w9WgXcQ") = 11
  ∧ (∀ before marker id after : jsstring,
       single_line before ->
       is_marker marker ->
       strlen id = 11 ->
       Forall (fun c => id_char c = true) id ->
       (after = [] ∨ ∃ c rest, after = c :: rest ∧ id_char c = false) ->
       marker_free (drop 1 (marker ++ id ++ after)) = true ->
       extractVideoId (before ++ marker ++ id ++ after) = Some id)
  ∧ (∀ url id : jsstring,
       extractVideoId url = Some id ->
       strlen id = 11 ∧ Forall (fun c => id_char c = true) id)
  ∧ ∀ before marker after : jsstring,
      single_line before ->
      is_marker marker ->
      strlen after < 11 ->
      extractVideoId (before ++ marker ++ after) = None.
Proof.
  split; [reflexivity |]. split; [reflexivity |]. split; [reflexivity |].
  split; [| split].
  - intros before marker id after Hline Hmarker Hlen Hid Hafter Hfree.
    apply is_marker_shape in Hmarker.
    pose proof (marker_at_head marker (id ++ after) Hmarker) as Hfa.
    assert (Hm : regExp_match (marker ++ id ++ after)
                 = Some {| group1 := marker;
                           group2 := run_of id_char (id ++ after) |}).
    { destruct (marker ++ id ++ after) as [|c s] eqn:Hs.
      - unfold regExp_match, groups_at. by rewrite Hfa.
      - change (drop 1 (c :: s)) with s in Hfree.
        rewrite regExp_match_cons, (marker_free_no_match s Hfree).
        unfold groups_at. rewrite Hfa.
        by destruct (negb (is_line_terminator c)). }
    unfold extractVideoId.
    rewrite (regExp_match_prefix before _ _ Hline Hm). simpl.
    rewrite (run_of_app id_char id after Hid Hafter).
    unfold strlen in Hlen. unfold strlen. by rewrite Hlen.
  - intros url id. unfold extractVideoId, strlen.
    destruct (regExp_match url) as [m|] eqn:Hm; [| discriminate].
    destruct (Nat.eqb_spec (length (group2 m)) 11) as [Hlen|];
      [| discriminate].
    intros [= <-]. split; [exact Hlen |].
    apply regExp_match_sound in Hm as (pre & rest & _ & _ & _ & ->).
    by destruct (run_of_spec id_char rest) as (after & _ & Hall & _).
  - intros before marker after Hline Hmarker Hafter.
    apply is_marker_shape in Hmarker.
    destruct (regExp_match_rightmost before (marker ++ after) marker after
                Hline (marker_at_head _ _ Hmarker)) as (m & Hm & Hlen).
    unfold extractVideoId, strlen in *. rewrite Hm.
    destruct (Nat.eqb_spec (length (group2 m)) 11); [lia | done].
Qed.

Lemma extractVideoId_known_shapes_witness :
  extractVideoId (str "https://www.youtube.com/watch?v=dQw4w9WgXcQ&t=42")
  = Some (str "dQw4w9WgXcQ")
  ∧ extractVideoId (str "https://youtu.be/dQw4w9WgXc") = None.
Proof.
  destruct extractVideoId_known_shapes as (_ & _ & _ & Hgood & _ & Hshort).
  split.
  - apply (Hgood (str "https://www.youtube.com/") (str "watch?v=")
             (str "dQw4w9WgXcQ") (str "&t=42")).
    + repeat constructor.
    + exists (lit "watch?v="). split; [| reflexivity].
      do 4 apply list_elem_of_further. apply list_elem_of_here.
    + reflexivity.
    + repeat constructor.
    + right. eexists. eexists. split; reflexivity.
    + vm_compute. reflexivity.
  - apply (Hshort (str "https://") (str "youtu.be/") (str "dQw4w9WgXc")).
    + repeat constructor.
    + exists (lit "youtu" ++ [Dot] ++ lit "be/").
      split; [apply list_elem_of_here | reflexivity].
    + simpl. lia.
Defined.

(** C10, as stated, fails on a URL that holds a line separator (U+2028):
    the marker [&v=] after it is followed by three characters only, and the
    URL is accepted, with the id that follows [youtu.be/] on its first
    line. *)
Lemma extractVideoId_accepts_short_marker_after_line_separator :
  is_marker (str "&v=")
  ∧ strlen (str "abc") < 11
  ∧ extractVideoId
      (str "https://youtu.be/dQw4w9WgXcQ?" ++ [8232%N] ++ str "&v="
       ++ str "abc")
    = Some (str "dQw4w9WgXcQ").
Proof.
  split; [| split].
  - exists (lit "&v="). split; [| reflexivity].
    do 5 apply list_elem_of_further. apply list_elem_of_here.
  - simpl. lia.
  - vm_compute. reflexivity.
Qed.

(** *** The generators and the fan-out *)

Section Generation.

Variable generateContent : Request -> Promise Response.
Variable JSON_parse : jsstring -> option JSON.

(** A generator of the shape "await the response, parse its text, fall back
    to [dflt] in the catch" is fulfilled with the parsed payload or with the
    fallback. *)
Lemma parse_or_default (r : Request) (empty : jsstring) (dflt : JSON) :
  ∃ v,
    try_catch (let/await response := generateContent r in
               parse JSON_parse (or_else (response_text response) empty))
              (fun _ => Fulfilled dflt) = Fulfilled v
    ∧ (v = dflt
       ∨ ∃ resp, generateContent r = Fulfilled resp
                 ∧ JSON_parse (or_else (response_text resp) empty) = Some v).
Proof.
  destruct (generateContent r) as [resp|e] eqn:Hr; simpl.
  - unfold parse.
    destruct (JSON_parse (or_else (response_text resp) empty)) as [v|] eqn:Hp;
      simpl; eauto 6.
  - eauto.
Qed.

Lemma parse_or_default_rejected (r : Request) (empty : jsstring) (dflt : JSON)
    (e : Error) :
  generateContent r = Rejected e ->
  try_catch (let/await response := generateContent r in
             parse JSON_parse (or_else (response_text response) empty))
            (fun _ => Fulfilled dflt) = Fulfilled dflt.
Proof. by intros ->. Qed.

Lemma generateExamStrategy_unfold (text : jsstring) (et : ExamType)
    (tf : TimeFrame) :
  generateExamStrategy generateContent JSON_parse text et tf
  = try_catch (let/await response :=
                 generateContent (strategy_request text et tf) in
               parse JSON_parse (or_else (response_text response) (str "{}")))
              (fun _ => Fulfilled default_strategy).
Proof.
  unfold generateExamStrategy.
  destruct (generateContent (strategy_request text et tf)) as [resp|e];
    simpl; [| done].
  by destruct (parse JSON_parse (or_else (response_text resp) (str "{}"))).
Qed.

(** The two free-text generators: the summary rejects exactly when its
    request does, the cheat sheet never rejects. *)
Lemma generateSummary_cases (text : jsstring) :
  (∃ resp, generateContent (summary_request text) = Fulfilled resp
           ∧ generateSummary generateContent text
             = Fulfilled (or_else (response_text resp)
                                  (str "Failed to generate summary.")))
  ∨ (∃ e, generateContent (summary_request text) = Rejected e
          ∧ generateSummary generateContent text
            = Rejected (mkError (str "Could not generate summary."))).
Proof.
  unfold generateSummary.
  destruct (generateContent (summary_request text)) as [resp|e]; simpl; eauto.
Qed.

Lemma generateCheatSheet_cases (text : jsstring) :
  (∃ resp, generateContent (cheatSheet_request text) = Fulfilled resp
           ∧ generateCheatSheet generateContent text
             = Fulfilled (or_else (response_text resp) []))
  ∨ (∃ e, generateContent (cheatSheet_request text) = Rejected e
          ∧ generateCheatSheet generateContent text
            = Fulfilled (str "Could not generate cheat sheet.")).
Proof.
  unfold generateCheatSheet.
  destruct (generateContent (cheatSheet_request text)) as [resp|e]; simpl;
    eauto.
Qed.

(** The fan-out is settled by the summary alone: the six other promises are
    always fulfilled. *)
Lemma fan_out_cases (text : jsstring) (et : ExamType) (tf : TimeFrame) :
  (∃ r, fan_out generateContent JSON_parse text et tf = Fulfilled r
        ∧ generateSummary generateContent text = Fulfilled (a_summary r)
        ∧ generateChapters generateContent JSON_parse text
          = Fulfilled (a_chapters r)
        ∧ extractFormulas generateContent JSON_parse text
          = Fulfilled (a_formulas r)
        ∧ generateExamStrategy generateContent JSON_parse text et tf
          = Fulfilled (a_strategy r)
        ∧ generateQuiz generateContent JSON_parse text
          = Fulfilled (a_quiz r)
        ∧ generateFlashcards generateContent JSON_parse text
          = Fulfilled (a_flashcards r)
        ∧ generateCheatSheet generateContent text
          = Fulfilled (a_cheatSheet r))
  ∨ (∃ e, fan_out generateContent JSON_parse text et tf = Rejected e
          ∧ generateSummary generateContent text = Rejected e).
Proof.
  unfold fan_out, Promise_all.
  destruct (generateSummary generateContent text) as [v1|e]; simpl;
    [| right; eauto].
  destruct (parse_or_default (chapters_request text) (str "[]") (JArray []))
    as (v2 & H2 & _).
  destruct (parse_or_default (formulas_request text) (str "[]") (JArray []))
    as (v3 & H3 & _).
  destruct (parse_or_default (strategy_request text et tf) (str "{}")
              default_strategy) as (v4 & H4 & _).
  destruct (parse_or_default (quiz_request text) (str "[]") (JArray []))
    as (v5 & H5 & _).
  destruct (parse_or_default (flashcards_request text) (str "[]") (JArray []))
    as (v6 & H6 & _).
  rewrite generateExamStrategy_unfold.
  unfold generateChapters, extractFormulas, generateQuiz, generateFlashcards.
  rewrite H2, H3, H4, H5, H6. simpl.
  destruct (generateCheatSheet_cases text) as [(resp & _ & ->)|(e & _ & ->)];
    simpl; left; eexists; repeat split; reflexivity.
Qed.

End Generation.

(** C1, amended. Every run of [handleStartProcessing] ends in one of two
    ways. Either all seven requests resolve: the view is Dashboard, the seven
    artifacts of the state are the seven results and the chat holds the
    greeting. Or a request is rejected: the view is Upload, the error is set,
    and the seven artifacts, the chat history and the user are those of the
    state before the run, never a partial merge. In both cases the lecture,
    exam type and time frame are the submitted ones. *)
Theorem handleStartProcessing_all_or_nothing
    (generateContent : Request -> Promise Response)
    (JSON_parse : jsstring -> option JSON)
    (text title : jsstring) (et : ExamType) (tf : TimeFrame)
    (vid : option jsstring) (now : N) (prev : AppState) :
  lecture (handleStartProcessing generateContent JSON_parse text title et tf
             vid now prev)
  = Some {| title := title; transcript := text; videoUrl := None;
            videoId := vid |}
  ∧ examType (handleStartProcessing generateContent JSON_parse text title et
                tf vid now prev) = et
  ∧ timeFrame (handleStartProcessing generateContent JSON_parse text title et
                 tf vid now prev) = tf
  ∧ user (handleStartProcessing generateContent JSON_parse text title et tf
            vid now prev) = user prev
  ∧ ((∃ r, fan_out generateContent JSON_parse text et tf = Fulfilled r
           ∧ generateSummary generateContent text = Fulfilled (a_summary r)
           ∧ generateChapters generateContent JSON_parse text
             = Fulfilled (a_chapters r)
           ∧ extractFormulas generateContent JSON_parse text
             = Fulfilled (a_formulas r)
           ∧ generateExamStrategy generateContent JSON_parse text et tf
             = Fulfilled (a_strategy r)
           ∧ generateQuiz generateContent JSON_parse text
             = Fulfilled (a_quiz r)
           ∧ generateFlashcards generateContent JSON_parse text
             = Fulfilled (a_flashcards r)
           ∧ generateCheatSheet generateContent text
             = Fulfilled (a_cheatSheet r)
           ∧ view (handleStartProcessing generateContent JSON_parse text title
                     et tf vid now prev) = DASHBOARD
           ∧ bundle (handleStartProcessing generateContent JSON_parse text
                       title et tf vid now prev) = bundle_of r
           ∧ chatHistory (handleStartProcessing generateContent JSON_parse
                            text title et tf vid now prev)
             = [welcome_message now]
           ∧ error (handleStartProcessing generateContent JSON_parse text
                      title et tf vid now prev) = error prev)
     ∨ (∃ e, fan_out generateContent JSON_parse text et tf = Rejected e
             ∧ generateSummary generateContent text = Rejected e
             ∧ view (handleStartProcessing generateContent JSON_parse text
                       title et tf vid now prev) = UPLOAD
             ∧ error (handleStartProcessing generateContent JSON_parse text
                        title et tf vid now prev) = Some processing_error
             ∧ bundle (handleStartProcessing generateContent JSON_parse text
                         title et tf vid now prev) = bundle prev
             ∧ chatHistory (handleStartProcessing generateContent JSON_parse
                              text title et tf vid now prev)
               = chatHistory prev)).
Proof.
  unfold handleStartProcessing.
  destruct (fan_out_cases generateContent JSON_parse text et tf)
    as [(r & Hr & H)|(e & He & Hsum)].
  - rewrite Hr. repeat (split; [reflexivity |]).
    left. exists r. split; [reflexivity |].
    destruct H as (H1 & H2 & H3 & H4 & H5 & H6 & H7).
    repeat (split; [assumption |]). repeat split; reflexivity.
  - rewrite He. repeat (split; [reflexivity |]).
    right. exists e. repeat split; try reflexivity. assumption.
Qed.

(** C1, as stated, fails on its failure branch: a run whose summary request
    is rejected leaves more than an error annotation behind, the lecture,
    the exam type and the time frame are those of the failed submission. *)
Lemma failed_processing_keeps_submission :
  view after_failed_processing = UPLOAD
  ∧ error after_failed_processing = Some processing_error
  ∧ lecture signed_in = None
  ∧ lecture after_failed_processing
    = Some {| title := str "Lecture 101"; transcript := demo_text;
              videoUrl := None; videoId := None |}
  ∧ examType signed_in = UNIVERSITY
  ∧ examType after_failed_processing = COMPETITIVE
  ∧ timeFrame signed_in = ONE_WEEK
  ∧ timeFrame after_failed_processing = ONE_DAY
  ∧ ¬ only_error_annotated signed_in after_failed_processing.
Proof.
  repeat (split; [reflexivity |]).
  unfold only_error_annotated. intros H.
  apply (f_equal examType) in H. discriminate H.
Qed.

(** C2, amended. The five structured generators never reject: when the
    collaborator rejects (or its text does not parse) chapters, formulas,
    quiz and flashcards are the empty list and the strategy is the default
    one. The summary generator rejects when its request is rejected, and
    that rejects the fan-out; nothing else does. The cheat sheet generator
    does not propagate: on a rejected request it is fulfilled with the text
    "Could not generate cheat sheet.". *)
Theorem generator_error_policy
    (generateContent : Request -> Promise Response)
    (JSON_parse : jsstring -> option JSON)
    (text : jsstring) (et : ExamType) (tf : TimeFrame) :
  ((∃ v, generateChapters generateContent JSON_parse text = Fulfilled v)
   ∧ (∃ v, extractFormulas generateContent JSON_parse text = Fulfilled v)
   ∧ (∃ v, generateExamStrategy generateContent JSON_parse text et tf
           = Fulfilled v)
   ∧ (∃ v, generateQuiz generateContent JSON_parse text = Fulfilled v)
   ∧ (∃ v, generateFlashcards generateContent JSON_parse text = Fulfilled v)
   ∧ (∃ v, generateCheatSheet generateContent text = Fulfilled v))
  ∧ (∀ e, generateContent (chapters_request text) = Rejected e ->
          generateChapters generateContent JSON_parse text
          = Fulfilled (JArray []))
  ∧ (∀ e, generateContent (formulas_request text) = Rejected e ->
          extractFormulas generateContent JSON_parse text
          = Fulfilled (JArray []))
  ∧ (∀ e, generateContent (strategy_request text et tf) = Rejected e ->
          generateExamStrategy generateContent JSON_parse text et tf
          = Fulfilled default_strategy)
  ∧ (∀ e, generateContent (quiz_request text) = Rejected e ->
          generateQuiz generateContent JSON_parse text
          = Fulfilled (JArray []))
  ∧ (∀ e, generateContent (flashcards_request text) = Rejected e ->
          generateFlashcards generateContent JSON_parse text
          = Fulfilled (JArray []))
  ∧ (∀ e, generateContent (cheatSheet_request text) = Rejected e ->
          generateCheatSheet generateContent text
          = Fulfilled (str "Could not generate cheat sheet."))
  ∧ (∀ e, generateContent (summary_request text) = Rejected e ->
          generateSummary generateContent text
          = Rejected (mkError (str "Could not generate summary."))
          ∧ fan_out generateContent JSON_parse text et tf
            = Rejected (mkError (str "Could not generate summary.")))
  ∧ (∀ e, fan_out generateContent JSON_parse text et tf = Rejected e ->
          ∃ e', generateContent (summary_request text) = Rejected e').
Proof.
  split.
  { rewrite generateExamStrategy_unfold.
    unfold generateChapters, extractFormulas, generateQuiz,
      generateFlashcards.
    repeat split;
      try (edestruct parse_or_default as (v & Hv & _); eexists; exact Hv).
    destruct (generateCheatSheet_cases generateContent text)
      as [(? & _ & ->)|(? & _ & ->)]; eauto. }
  split; [intros e0 H0; by apply (parse_or_default_rejected _ _ _ _ _ e0) |].
  split; [intros e0 H0; by apply (parse_or_default_rejected _ _ _ _ _ e0) |].
  split; [intros e0 H0; rewrite generateExamStrategy_unfold;
          by apply (parse_or_default_rejected _ _ _ _ _ e0) |].
  split; [intros e0 H0; by apply (parse_or_default_rejected _ _ _ _ _ e0) |].
  split; [intros e0 H0; by apply (parse_or_default_rejected _ _ _ _ _ e0) |].
  split; [intros e0 H0; unfold generateCheatSheet; by rewrite H0 |].
  destruct (fan_out_cases generateContent JSON_parse text et tf)
    as [(r & Hr & H1 & _)|(e & He & Hsum)];
    destruct (generateSummary_cases generateContent text)
      as [(resp & Hreq & Hs)|(e1 & Hreq & Hs)]; try congruence.
  - split; intros e0 H0; congruence.
  - split.
    + intros e0 _. split; [exact Hs |]. congruence.
    + intros e0 _. eauto.
Qed.

Lemma generator_error_policy_witness :
  generateSummary (ai_sample all_down []) demo_text
  = Rejected (mkError (str "Could not generate summary."))
  ∧ fan_out (ai_sample all_down []) JSON_parse_table demo_text UNIVERSITY
      ONE_WEEK
    = Rejected (mkError (str "Could not generate summary.")).
Proof.
  destruct (generator_error_policy (ai_sample all_down []) JSON_parse_table
              demo_text UNIVERSITY ONE_WEEK)
    as (_ & _ & _ & _ & _ & _ & _ & Hsummary & _).
  apply (Hsummary service_unavailable). reflexivity.
Defined.

(** C2, as stated, fails for the cheat sheet: when only the cheat sheet
    request is rejected, the generator is fulfilled with its fixed text, the
    fan-out is fulfilled and the run ends on the dashboard with that text as
    the cheat sheet. *)
Lemma cheatSheet_failure_does_not_propagate :
  ai_sample cheatSheet_down good_quiz_text (cheatSheet_request demo_text)
  = Rejected service_unavailable
  ∧ generateCheatSheet (ai_sample cheatSheet_down good_quiz_text) demo_text
    = Fulfilled (str "Could not generate cheat sheet.")
  ∧ view after_cheatSheet_failure = DASHBOARD
  ∧ cheatSheet after_cheatSheet_failure
    = str "Could not generate cheat sheet."
  ∧ error after_cheatSheet_failure = None.
Proof. repeat split; vm_compute; reflexivity. Qed.

(** *** The tutor chat *)

(** [chatWithLecture] is always fulfilled: with the response text, with a
    fixed text when the response has none, with an apology when the request
    is rejected. *)
Lemma chatWithLecture_cases
    (generateContent : Request -> Promise Response)
    (transcript : jsstring) (history : list (jsstring * jsstring))
    (message : jsstring) :
  (∃ resp, generateContent (chat_request transcript message) = Fulfilled resp
           ∧ chatWithLecture generateContent transcript history message
             = Fulfilled (or_else (response_text resp)
                            (str "I'm having trouble thinking right now.")))
  ∨ (∃ e, generateContent (chat_request transcript message) = Rejected e
          ∧ chatWithLecture generateContent transcript history message
            = Fulfilled (str "Sorry, I encountered an error answering that.")).
Proof.
  unfold chatWithLecture.
  destruct (generateContent (chat_request transcript message)) as [resp|e];
    simpl; eauto.
Qed.

(** C3, amended. When the request of a chat turn is rejected, the turn is
    not abandoned: after the user's message an assistant message with the
    text "Sorry, I encountered an error answering that." is appended; the
    input is cleared and the composing flag is down. *)
Theorem failed_chat_turn_appends_apology
    (generateContent : Request -> Promise Response)
    (lecture : option LectureData) (clk : Clock) (st : ChatState)
    (e : Error) :
  truthy (trim (chatInput st)) = true ->
  generateContent
    (chat_request (or_else (option_map transcript lecture) []) (chatInput st))
  = Rejected e ->
  handleSendMessage generateContent lecture clk st
  = {| chatMessages :=
         chatMessages st
         ++ [user_message clk (chatInput st);
             ai_message clk
               (str "Sorry, I encountered an error answering that.")];
       chatInput := [];
       isChatLoading := false |}.
Proof.
  intros Hinput Hreq. unfold handleSendMessage. rewrite Hinput. simpl.
  destruct (chatWithLecture_cases generateContent
              (or_else (option_map transcript lecture) [])
              (history_of (chatMessages st)) (chatInput st))
    as [(resp & Hresp & _)|(e' & _ & ->)]; [congruence |].
  simpl. by rewrite <- app_assoc.
Qed.

Lemma failed_chat_turn_appends_apology_witness :
  handleSendMessage (ai_sample chat_down []) (lecture on_dashboard)
    sample_clock asking
  = {| chatMessages :=
         [welcome_message 1700000000000;
          user_message sample_clock (str "What is clustering?");
          ai_message sample_clock
            (str "Sorry, I encountered an error answering that.")];
       chatInput := [];
       isChatLoading := false |}.
Proof.
  apply (failed_chat_turn_appends_apology (ai_sample chat_down [])
           (lecture on_dashboard) sample_clock asking service_unavailable).
  - reflexivity.
  - reflexivity.
Defined.

(** C3, as stated, fails: with the chat request rejected, the history grows
    by two messages, the second one an assistant message carrying the
    apology. *)
Lemma failed_chat_turn_is_not_silent :
  ai_sample chat_down []
    (chat_request (or_else (option_map transcript (lecture on_dashboard)) [])
       (chatInput asking))
  = Rejected service_unavailable
  ∧ length (chatMessages asking) = 1
  ∧ length (chatMessages
              (handleSendMessage (ai_sample chat_down [])
                 (lecture on_dashboard) sample_clock asking)) = 3
  ∧ last (chatMessages
            (handleSendMessage (ai_sample chat_down [])
               (lecture on_dashboard) sample_clock asking))
    = Some (ai_message sample_clock
              (str "Sorry, I encountered an error answering that."))
  ∧ isChatLoading
      (handleSendMessage (ai_sample chat_down []) (lecture on_dashboard)
         sample_clock asking) = false.
Proof. repeat split; vm_compute; reflexivity. Qed.

(** *** Sign-out and reset *)

(** C4, amended. Sign-out leads to the Auth view and discards the user, the
    lecture, the summary, the quiz and the error; reset leads to the Upload
    view and discards the lecture, the summary, the quiz and the error. Both
    leave chapters, formulas, strategy, flashcards, cheat sheet and chat
    history as they were. *)
Theorem sign_out_and_reset_effects (prev : AppState) :
  handleSignOut prev
  = {| view := AUTH; user := None; lecture := None;
       examType := examType prev; timeFrame := timeFrame prev;
       summary := []; chapters := chapters prev; formulas := formulas prev;
       strategy := strategy prev; quiz := JArray [];
       flashcards := flashcards prev; cheatSheet := cheatSheet prev;
       chatHistory := chatHistory prev; error := None;
       successMessage := successMessage prev |}
  ∧ handleReset prev
    = {| view := UPLOAD; user := user prev; lecture := None;
         examType := examType prev; timeFrame := timeFrame prev;
         summary := []; chapters := chapters prev; formulas := formulas prev;
         strategy := strategy prev; quiz := JArray [];
         flashcards := flashcards prev; cheatSheet := cheatSheet prev;
         chatHistory := chatHistory prev; error := None;
         successMessage := successMessage prev |}
  ∧ (chapters (handleSignOut prev), formulas (handleSignOut prev),
     strategy (handleSignOut prev), flashcards (handleSignOut prev),
     cheatSheet (handleSignOut prev), chatHistory (handleSignOut prev))
    = (chapters prev, formulas prev, strategy prev, flashcards prev,
       cheatSheet prev, chatHistory prev)
  ∧ (chapters (handleReset prev), formulas (handleReset prev),
     strategy (handleReset prev), flashcards (handleReset prev),
     cheatSheet (handleReset prev), chatHistory (handleReset prev))
    = (chapters prev, formulas prev, strategy prev, flashcards prev,
       cheatSheet prev, chatHistory prev).
Proof. repeat split. Qed.

(** C4, as stated, fails: after sign-out from the dashboard the cheat sheet,
    the strategy and the chat history of the session are still in the state,
    and after reset so is the cheat sheet. *)
Lemma sign_out_keeps_cheatSheet_and_chat :
  view on_dashboard = DASHBOARD
  ∧ cheatSheet (handleSignOut on_dashboard)
    = str "**Supervised**: labels. **Unsupervised**: none."
  ∧ strategy (handleSignOut on_dashboard) = Some (JObject [])
  ∧ chatHistory (handleSignOut on_dashboard)
    = [welcome_message 1700000000000]
  ∧ cheatSheet (handleReset on_dashboard)
    = str "**Supervised**: labels. **Unsupervised**: none."
  ∧ chatHistory (handleReset on_dashboard)
    = [welcome_message 1700000000000].
Proof. repeat split; vm_compute; reflexivity. Qed.

(** *** The quiz payload *)

(** C8, amended. Quiz generation returns the collaborator's payload as
    parsed, without validating it, or the empty quiz on failure: when the
    request is fulfilled and its text parses, the generated quiz is the
    parsed payload, unchanged; when the request is rejected or the text does
    not parse, it is the empty quiz. So every question of the generated quiz
    has exactly 4 options and a correct index in [0,4) whenever every
    question of the collaborator's payload does. *)
Theorem generateQuiz_passes_payload_through
    (generateContent : Request -> Promise Response)
    (JSON_parse : jsstring -> option JSON) (text : jsstring) :
  (∀ resp payload,
     generateContent (quiz_request text) = Fulfilled resp ->
     JSON_parse (or_else (response_text resp) (str "[]")) = Some payload ->
     generateQuiz generateContent JSON_parse text = Fulfilled payload)
  ∧ (∀ resp,
       generateContent (quiz_request text) = Fulfilled resp ->
       JSON_parse (or_else (response_text resp) (str "[]")) = None ->
       generateQuiz generateContent JSON_parse text = Fulfilled (JArray []))
  ∧ (∀ e,
       generateContent (quiz_request text) = Rejected e ->
       generateQuiz generateContent JSON_parse text = Fulfilled (JArray []))
  ∧ quiz_well_formed (JArray []) = true
  ∧ ∃ v, generateQuiz generateContent JSON_parse text = Fulfilled v
         ∧ (v = JArray []
            ∨ ∃ resp, generateContent (quiz_request text) = Fulfilled resp
                      ∧ JSON_parse (or_else (response_text resp) (str "[]"))
                        = Some v)
         ∧ ((∀ resp payload,
               generateContent (quiz_request text) = Fulfilled resp ->
               JSON_parse (or_else (response_text resp) (str "[]"))
               = Some payload ->
               quiz_well_formed payload = true) ->
            quiz_well_formed v = true).
Proof.
  split; [| split; [| split; [| split; [reflexivity |]]]].
  - intros resp payload Hresp Hparse. unfold generateQuiz, parse.
    rewrite Hresp. simpl. by rewrite Hparse.
  - intros resp Hresp Hparse. unfold generateQuiz, parse.
    rewrite Hresp. simpl. by rewrite Hparse.
  - intros e Hrej. unfold generateQuiz. by rewrite Hrej.
  - unfold generateQuiz.
    destruct (parse_or_default generateContent JSON_parse (quiz_request text)
                (str "[]") (JArray [])) as (v & Hv & Hcases).
    exists v. split; [exact Hv |]. split; [exact Hcases |].
    intros Hpayload. destruct Hcases as [-> | (resp & Hresp & Hparse)].
    + reflexivity.
    + by apply (Hpayload resp v).
Qed.

Lemma generateQuiz_passes_payload_through_witness :
  generateQuiz (ai_sample nothing_down good_quiz_text) JSON_parse_table
    demo_text = Fulfilled good_quiz
  ∧ generateQuiz (ai_sample quiz_down good_quiz_text) JSON_parse_table
      demo_text = Fulfilled (JArray []).
Proof.
  split.
  - destruct (generateQuiz_passes_payload_through
                (ai_sample nothing_down good_quiz_text) JSON_parse_table
                demo_text) as (Hpass & _).
    apply (Hpass {| response_text := Some good_quiz_text |}).
    + reflexivity.
    + vm_compute. reflexivity.
  - destruct (generateQuiz_passes_payload_through
                (ai_sample quiz_down good_quiz_text) JSON_parse_table
                demo_text) as (_ & _ & Hrej & _).
    apply (Hrej service_unavailable). reflexivity.
Defined.

(** C8, as stated, fails: a payload whose question has two options and
    correct index 7 goes through quiz generation unchanged. *)
Lemma generateQuiz_keeps_malformed_question :
  JSON_parse_table short_quiz_text = Some short_quiz
  ∧ generateQuiz (ai_sample nothing_down short_quiz_text) JSON_parse_table
      demo_text = Fulfilled short_quiz
  ∧ quiz_well_formed short_quiz = false
  ∧ (∃ q opts, elements_of short_quiz = Some [q]
               ∧ get (str "options") q = Some (JArray opts)
               ∧ length opts = 2
               ∧ get (str "correctAnswerIndex") q = Some (JNumber 7)).
Proof.
  split; [vm_compute; reflexivity |]. split; [vm_compute; reflexivity |].
  split; [vm_compute; reflexivity |].
  eexists. eexists. split; [reflexivity |]. split; [vm_compute; reflexivity |].
  split; reflexivity.
Qed.

(* ===================================================================== *)
(** ** Further properties of the code *)
(* ===================================================================== *)

(** *** Video id extraction: what is accepted *)

(** X1. An id is returned only when it is the run of exactly 11 characters
    other than [#], [&] and [?] that directly follows a marker standing after
    a single-line prefix, and that run stops at the end of the URL or at one
    of the three characters. *)
Theorem extractVideoId_sound (url id : jsstring) :
  extractVideoId url = Some id ->
  strlen id = 11
  ∧ Forall (fun c => id_char c = true) id
  ∧ ∃ before marker after,
      url = before ++ marker ++ id ++ after
      ∧ single_line before
      ∧ is_marker marker
      ∧ (after = [] ∨ ∃ c rest, after = c :: rest ∧ id_char c = false).
Proof.
  unfold extractVideoId, strlen.
  destruct (regExp_match url) as [m|] eqn:Hm; [| discriminate].
  destruct (Nat.eqb_spec (length (group2 m)) 11) as [Hlen|]; [| discriminate].
  intros [= <-]. split; [exact Hlen |].
  apply regExp_match_sound in Hm as (pre & rest & -> & Hpre & Hfa & Hg2).
  destruct (run_of_spec id_char rest) as (after & Hrest & Hall & Hafter).
  rewrite <- Hg2 in Hrest, Hall. split; [exact Hall |].
  exists pre, (group1 m), after. split; [by rewrite <- Hrest |].
  split; [exact Hpre |]. split; [| exact Hafter].
  apply is_marker_shape. by apply first_alternative_shape in Hfa as [_ ?].
Qed.

Import MoreProps MoreSamples Sessions.

(** X2. The last marker decides. A URL without any marker is rejected. A URL
    in which a marker stands after a single-line prefix, with no other marker
    starting after its first character, is accepted exactly when the run of
    id characters that follows it has 11 characters, and that run is the
    id. *)
Theorem extractVideoId_last_marker_decides :
  (∀ url, marker_free url = true -> extractVideoId url = None)
  ∧ ∀ before marker rest : jsstring,
      single_line before ->
      is_marker marker ->
      marker_free (drop 1 (marker ++ rest)) = true ->
      extractVideoId (before ++ marker ++ rest)
      = if Nat.eqb (strlen (run_of id_char rest)) 11
        then Some (run_of id_char rest) else None.
Proof.
  split.
  - intros url H. unfold extractVideoId. by rewrite marker_free_no_match.
  - intros before marker rest Hline Hmarker Hfree.
    apply is_marker_shape in Hmarker.
    pose proof (marker_at_head marker rest Hmarker) as Hfa.
    assert (Hm : regExp_match (marker ++ rest)
                 = Some {| group1 := marker;
                           group2 := run_of id_char rest |}).
    { destruct (marker ++ rest) as [|c s] eqn:Hs.
      - unfold regExp_match, groups_at. by rewrite Hfa.
      - change (drop 1 (c :: s)) with s in Hfree.
        rewrite regExp_match_cons, (marker_free_no_match s Hfree).
        unfold groups_at. rewrite Hfa.
        by destruct (negb (is_line_terminator c)). }
    unfold extractVideoId.
    by rewrite (regExp_match_prefix before _ _ Hline Hm).
Qed.

Lemma extractVideoId_last_marker_decides_witness :
  extractVideoId (str "https://www.youtube.com/embed/dQw4w9WgXcQ?start=42")
  = Some (str "dQw4w9WgXcQ").
Proof.
  destruct extractVideoId_last_marker_decides as [_ H].
  apply (H (str "https://www.youtube.com/") (str "embed/")
           (str "dQw4w9WgXcQ?start=42")).
  - repeat constructor.
  - exists (lit "embed/"). split; [| reflexivity].
    do 3 apply list_elem_of_further. apply list_elem_of_here.
  - vm_compute. reflexivity.
Defined.

Lemma extractVideoId_sound_witness :
  Forall (fun c => id_char c = true) (str "dQw4w9WgXcQ").
Proof.
  destruct (extractVideoId_sound (str "https://youtu.be/dQw4w9WgXcQ?t=42")
              (str "dQw4w9WgXcQ")) as (_ & H & _).
  - reflexivity.
  - exact H.
Defined.

(** *** Truncation of the transcript *)

Lemma substring0_prefix (n k : N) (text text' : jsstring) :
  (k <= n)%N ->
  substring0 n text = substring0 n text' ->
  substring0 k text = substring0 k text'.
Proof.
  unfold substring0. intros Hk H.
  assert (Hmin : N.to_nat k `min` N.to_nat n = N.to_nat k) by lia.
  rewrite <- Hmin, <- !take_take. by rewrite H.
Qed.

(** X3. Generation reads a bounded prefix of the transcript only: two
    transcripts with the same first 30000 code units get the same fan-out
    result, and two with the same first 20000 get the same tutor reply. A
    transcript no longer than the bound of a request is sent whole in it:
    up to 30000 code units in the summary, chapters, formulas and cheat
    sheet requests, up to 20000 in the strategy, quiz, flashcards and chat
    requests. *)
Theorem generation_reads_a_prefix
    (generateContent : Request -> Promise Response)
    (JSON_parse : jsstring -> option JSON)
    (text text' : jsstring) (et : ExamType) (tf : TimeFrame) :
  (substring0 30000 text = substring0 30000 text' ->
   fan_out generateContent JSON_parse text et tf
   = fan_out generateContent JSON_parse text' et tf)
  ∧ (substring0 20000 text = substring0 20000 text' ->
     ∀ history history' message,
       chatWithLecture generateContent text history message
       = chatWithLecture generateContent text' history' message)
  ∧ ((N.of_nat (strlen text) <= 30000)%N ->
     contents (summary_request text) = SummaryPrompt text
     ∧ contents (chapters_request text) = ChaptersPrompt text
     ∧ contents (formulas_request text) = FormulasPrompt text
     ∧ contents (cheatSheet_request text) = CheatSheetPrompt text)
  ∧ ((N.of_nat (strlen text) <= 20000)%N ->
     contents (strategy_request text et tf)
     = StrategyPrompt (ExamType_value et) (TimeFrame_value tf) text
     ∧ contents (quiz_request text) = QuizPrompt text
     ∧ contents (flashcards_request text) = FlashcardsPrompt text
     ∧ (∀ message,
          contents (chat_request text message) = ChatPrompt text message)
     ∧ contents (summary_request text) = SummaryPrompt text
     ∧ contents (chapters_request text) = ChaptersPrompt text
     ∧ contents (formulas_request text) = FormulasPrompt text
     ∧ contents (cheatSheet_request text) = CheatSheetPrompt text).
Proof.
  assert (Hwhole : ∀ n : N, (N.of_nat (strlen text) <= n)%N ->
                     substring0 n text = text).
  { intros n Hn. unfold substring0, strlen in *. apply take_ge. lia. }
  split; [| split; [| split]].
  - intros H30.
    assert (H20 : substring0 20000 text = substring0 20000 text')
      by (by apply (substring0_prefix 30000)).
    unfold fan_out, generateSummary, generateChapters, extractFormulas,
      generateExamStrategy, generateQuiz, generateFlashcards,
      generateCheatSheet, summary_request, chapters_request,
      formulas_request, strategy_request, quiz_request, flashcards_request,
      cheatSheet_request.
    by rewrite H30, H20.
  - intros H20 history history' message.
    unfold chatWithLecture, chat_request. by rewrite H20.
  - intros Hlen.
    unfold summary_request, chapters_request, formulas_request,
      cheatSheet_request. simpl. by rewrite (Hwhole 30000%N Hlen).
  - intros Hlen.
    assert (Hlen30 : (N.of_nat (strlen text) <= 30000)%N) by lia.
    unfold strategy_request, quiz_request, flashcards_request, chat_request,
      summary_request, chapters_request, formulas_request,
      cheatSheet_request. simpl.
    by rewrite (Hwhole 20000%N Hlen), (Hwhole 30000%N Hlen30).
Qed.

Lemma generation_reads_a_prefix_witness :
  long_text_a ≠ long_text_b
  ∧ fan_out (ai_sample nothing_down good_quiz_text) JSON_parse_table
      long_text_a UNIVERSITY ONE_WEEK
    = fan_out (ai_sample nothing_down good_quiz_text) JSON_parse_table
        long_text_b UNIVERSITY ONE_WEEK.
Proof.
  split.
  - unfold long_text_a, long_text_b. intros H.
    apply app_inv_head in H. discriminate H.
  - apply (generation_reads_a_prefix (ai_sample nothing_down good_quiz_text)
             JSON_parse_table long_text_a long_text_b UNIVERSITY ONE_WEEK).
    unfold substring0, long_text_a, long_text_b.
    by rewrite !take_app_length' by (by rewrite length_replicate).
Defined.

(** *** The tutor chat: every turn *)

Lemma trim_start_nil_iff (s : jsstring) : trim_start s = [] ↔ blank s.
Proof.
  unfold blank. induction s as [|c s IH]; simpl.
  - split; [constructor | done].
  - destruct (strips c) eqn:Hc.
    + rewrite IH. split; [by constructor | by inversion 1].
    + split; [discriminate | inversion 1; congruence].
Qed.

Lemma trim_start_head (s : jsstring) :
  trim_start s = [] ∨ ∃ c r, trim_start s = c :: r ∧ strips c = false.
Proof.
  induction s as [|c s IH]; simpl; [by left |].
  destruct (strips c) eqn:Hc; [done |]. right. by exists c, s.
Qed.

Lemma trim_start_suffix (s : jsstring) : ∃ pre, blank pre ∧ s = pre ++ trim_start s.
Proof.
  induction s as [|c s (pre & Hpre & Hs)]; simpl.
  - exists []. split; [constructor | done].
  - destruct (strips c) eqn:Hc.
    + exists (c :: pre). split; [by constructor | simpl; by f_equal].
    + exists []. split; [constructor | done].
Qed.

(** [trim] leaves nothing exactly when the text is blank. *)
Lemma trim_nil_iff (s : jsstring) : trim s = [] ↔ blank s.
Proof.
  unfold trim. split.
  - intros H. apply (f_equal (fun l => rev l)) in H.
    rewrite rev_involutive in H.
    simpl in H. apply trim_start_nil_iff in H. unfold blank in H.
    rewrite <- (rev_involutive (trim_start s)) in H.
    apply Forall_rev in H. rewrite rev_involutive in H.
    rewrite rev_involutive in H.
    destruct (trim_start_head s) as [Hnil | (c & r & Hcr & Hc)].
    + by apply trim_start_nil_iff.
    + rewrite Hcr in H. inversion H; congruence.
  - intros H. apply trim_start_nil_iff in H. by rewrite H.
Qed.

Lemma truthy_false_iff (s : jsstring) : truthy s = false ↔ s = [].
Proof. destruct s; simpl; split; congruence. Qed.

(** The two ways a chat turn ends. *)
Lemma handleSendMessage_cases
    (generateContent : Request -> Promise Response)
    (lecture : option LectureData) (clk : Clock) (st : ChatState) :
  (blank (chatInput st)
   ∧ handleSendMessage generateContent lecture clk st = st)
  ∨ (¬ blank (chatInput st)
     ∧ ∃ reply,
         truthy reply = true
         ∧ handleSendMessage generateContent lecture clk st
           = {| chatMessages :=
                  chatMessages st
                  ++ [user_message clk (chatInput st); ai_message clk reply];
                chatInput := [];
                isChatLoading := false |}).
Proof.
  unfold handleSendMessage.
  destruct (truthy (trim (chatInput st))) eqn:Ht; simpl.
  - right. split.
    { intros Hb. apply trim_nil_iff in Hb. by rewrite Hb in Ht. }
    destruct (chatWithLecture_cases generateContent
                (or_else (option_map transcript lecture) [])
                (history_of (chatMessages st)) (chatInput st))
      as [(resp & _ & ->)|(e & _ & ->)]; simpl.
    + eexists. split; [| by rewrite <- app_assoc].
      unfold or_else. destruct (response_text resp) as [t|]; [| done].
      by destruct (truthy t) eqn:Htt.
    + eexists. split; [| by rewrite <- app_assoc]. reflexivity.
  - left. split; [| done]. by apply trim_nil_iff, truthy_false_iff.
Qed.

(** X4. A chat turn with a blank input (empty, or only white space and line
    terminators) changes nothing, and only such a turn does. *)
Theorem blank_message_is_ignored
    (generateContent : Request -> Promise Response)
    (lecture : option LectureData) (clk : Clock) (st : ChatState) :
  handleSendMessage generateContent lecture clk st = st
  ↔ blank (chatInput st).
Proof.
  destruct (handleSendMessage_cases generateContent lecture clk st)
    as [[Hb ->]|[Hb (reply & _ & ->)]].
  - done.
  - split; [| done]. intros H.
    apply (f_equal (fun x => length (chatMessages x))) in H.
    simpl in H. rewrite length_app in H. simpl in H. lia.
Qed.

(** X5. A chat turn with a non-blank input always ends with exactly two
    messages appended to the history, the user's text and then one assistant
    message whose text is not empty, whatever the collaborator does; the
    input box is cleared and the composing flag is down. *)
Theorem chat_turn_appends_question_and_reply
    (generateContent : Request -> Promise Response)
    (lecture : option LectureData) (clk : Clock) (st : ChatState) :
  ¬ blank (chatInput st) ->
  ∃ reply,
    truthy reply = true
    ∧ handleSendMessage generateContent lecture clk st
      = {| chatMessages :=
             chatMessages st
             ++ [user_message clk (chatInput st); ai_message clk reply];
           chatInput := [];
           isChatLoading := false |}.
Proof.
  intros Hblank.
  destruct (handleSendMessage_cases generateContent lecture clk st)
    as [[Hb _]|[_ H]]; [done | exact H].
Qed.

Lemma alternating_snoc2 (l : list Sender) :
  alternating ai_sender l = true ->
  alternating ai_sender (l ++ [user_sender; ai_sender]) = true.
Proof.
  assert (H : ∀ e, alternating e l = true ->
    match e with
    | ai_sender => alternating e (l ++ [user_sender; ai_sender]) = true
    | user_sender => alternating e (l ++ [user_sender; ai_sender]) = true
    end).
  { induction l as [|s l IH]; intros e; simpl.
    - by destruct e.
    - destruct e, s; try discriminate; intros H.
      + by apply (IH ai_sender).
      + by apply (IH user_sender). }
  intros Hl. by apply (H ai_sender).
Qed.

(** X6. Turns taken one after the other keep the history append-only and
    alternating: starting from a history that begins with the assistant and
    alternates (the greeting alone does), the old messages stay in front, the
    history grows by two messages per non-blank turn, and the senders keep
    alternating assistant, user, assistant, ... *)
Theorem chat_history_alternates
    (generateContent : Request -> Promise Response)
    (lecture : option LectureData) (turns : list (jsstring * Clock))
    (st : ChatState) :
  alternating ai_sender (senders (chatMessages st)) = true ->
  alternating ai_sender
    (senders (chatMessages
                (Sessions.take_turns generateContent lecture turns st)))
  = true
  ∧ chatMessages st
    `prefix_of` chatMessages
                  (Sessions.take_turns generateContent lecture turns st)
  ∧ length (chatMessages
              (Sessions.take_turns generateContent lecture turns st))
    = length (chatMessages st) + 2 * spoken turns.
Proof.
  unfold Sessions.take_turns, spoken. revert st.
  induction turns as [|[input clk] turns IH]; intros st Hst; simpl.
  - split; [done |]. split; [done | lia].
  - set (st1 := handleSendMessage generateContent lecture clk
                  (Sessions.type_input input st)).
    assert (H1 : (truthy (trim input) = false ∧ chatMessages st1 = chatMessages st)
                 ∨ (truthy (trim input) = true
                    ∧ ∃ reply, chatMessages st1
                      = chatMessages st
                        ++ [user_message clk input; ai_message clk reply])).
    { subst st1.
      destruct (handleSendMessage_cases generateContent lecture clk
                  (Sessions.type_input input st))
        as [[Hb ->]|[Hb (reply & _ & ->)]]; simpl in Hb.
      - left. split; [| done]. by apply truthy_false_iff, trim_nil_iff.
      - right. split; [| by exists reply].
        destruct (truthy (trim input)) eqn:Ht; [done |].
        exfalso. by apply Hb, trim_nil_iff, truthy_false_iff. }
    destruct (IH st1) as (Halt & Hpre & Hlen).
    { destruct H1 as [[_ ->] | [_ (reply & ->)]]; [done |].
      unfold senders. rewrite map_app. simpl.
      by apply alternating_snoc2. }
    split; [exact Halt |].
    destruct H1 as [[Ht Hm] | [Ht (reply & Hm)]].
    + rewrite Hm in Hpre, Hlen. split; [done |].
      rewrite filter_cons. simpl. rewrite Ht.
      rewrite decide_False by discriminate. lia.
    + rewrite Hm in Hpre, Hlen. split.
      * etransitivity; [| exact Hpre]. by apply prefix_app_r.
      * rewrite filter_cons. simpl. rewrite Ht.
        rewrite decide_True by reflexivity. rewrite length_app in Hlen.
        simpl in *. lia.
Qed.

Lemma blank_message_is_ignored_witness :
  handleSendMessage (ai_sample nothing_down []) None sample_clock
    (type_input (str "   ") asking)
  = type_input (str "   ") asking.
Proof.
  apply (blank_message_is_ignored (ai_sample nothing_down []) None
           sample_clock (type_input (str "   ") asking)).
  repeat constructor.
Defined.

Lemma chat_turn_appends_question_and_reply_witness :
  length (chatMessages
            (handleSendMessage (ai_sample nothing_down []) None sample_clock
               asking)) = 3.
Proof.
  destruct (chat_turn_appends_question_and_reply
              (ai_sample nothing_down []) None sample_clock asking)
    as (reply & _ & ->).
  - intros H. inversion H as [|c r Hc Hr]. vm_compute in Hc. discriminate Hc.
  - reflexivity.
Defined.

Lemma chat_history_alternates_witness :
  length (chatMessages
            (take_turns (ai_sample chat_down []) (lecture on_dashboard)
               three_turns (chat_initial on_dashboard))) = 5.
Proof.
  destruct (chat_history_alternates (ai_sample chat_down [])
              (lecture on_dashboard) three_turns (chat_initial on_dashboard))
    as (_ & _ & ->).
  - reflexivity.
  - reflexivity.
Defined.

(** *** The flashcard viewer: any sequence of presses *)

Lemma press_in_range (cards : list Flashcard) (st : DeckState) (p : Press) :
  cards ≠ [] ->
  (0 <= currentIndex st < Z.of_nat (length cards))%Z ->
  (0 <= currentIndex (press cards st p) < Z.of_nat (length cards))%Z.
Proof.
  intros Hne Hi. pose proof (deck_size_pos cards Hne) as HN.
  destruct p; simpl; [| | done].
  - rewrite Z.rem_mod_nonneg by lia. apply Z.mod_pos_bound. lia.
  - rewrite Z.rem_mod_nonneg by lia. apply Z.mod_pos_bound. lia.
Qed.

(** X7. Whatever buttons are pressed, in whatever order, the index of the
    viewer stays inside a non-empty deck, so there is always a card to show;
    "Previous" undoes "Next" and "Next" undoes "Previous"; and both leave
    the card on its front side. *)
Theorem flashcard_index_stays_in_deck (cards : list Flashcard)
    (presses : list Press) :
  cards ≠ [] ->
  (∃ card,
     cards !! Z.to_nat (currentIndex (fold_left (press cards) presses
                                        deck_initial)) = Some card)
  ∧ (0 <= currentIndex (fold_left (press cards) presses deck_initial)
       < Z.of_nat (length cards))%Z
  ∧ ∀ st : DeckState,
      (0 <= currentIndex st < Z.of_nat (length cards))%Z ->
      currentIndex (handlePrev cards (handleNext cards st)) = currentIndex st
      ∧ currentIndex (handleNext cards (handlePrev cards st))
        = currentIndex st
      ∧ flipped (handleNext cards st) = false
      ∧ flipped (handlePrev cards st) = false.
Proof.
  intros Hne. pose proof (deck_size_pos cards Hne) as HN.
  assert (Hrange : ∀ st,
            (0 <= currentIndex st < Z.of_nat (length cards))%Z ->
            (0 <= currentIndex (fold_left (press cards) presses st)
               < Z.of_nat (length cards))%Z).
  { induction presses as [|p presses IH]; intros st Hst; simpl; [done |].
    apply IH. by apply press_in_range. }
  specialize (Hrange deck_initial). simpl in Hrange.
  split; [| split; [apply Hrange; lia |]].
  - apply lookup_lt_is_Some_2.
    destruct Hrange as [H0 H1]; [lia |]. lia.
  - intros st Hst. unfold handlePrev, handleNext. simpl.
    repeat split.
    + rewrite (Z.rem_mod_nonneg (currentIndex st + 1)) by lia.
      pose proof (Z.mod_pos_bound (currentIndex st + 1) _ HN).
      rewrite Z.rem_mod_nonneg by lia.
      replace ((currentIndex st + 1) mod Z.of_nat (length cards) - 1
               + Z.of_nat (length cards))%Z
        with ((currentIndex st + 1) mod Z.of_nat (length cards)
              + (Z.of_nat (length cards) - 1))%Z by lia.
      rewrite Zplus_mod_idemp_l.
      replace (currentIndex st + 1 + (Z.of_nat (length cards) - 1))%Z
        with (currentIndex st + 1 * Z.of_nat (length cards))%Z by lia.
      rewrite Z_mod_plus_full. apply Z.mod_small. lia.
    + rewrite (Z.rem_mod_nonneg (currentIndex st - 1 + _)) by lia.
      pose proof (Z.mod_pos_bound
                    (currentIndex st - 1 + Z.of_nat (length cards)) _ HN).
      rewrite Z.rem_mod_nonneg by lia.
      rewrite Zplus_mod_idemp_l.
      replace (currentIndex st - 1 + Z.of_nat (length cards) + 1)%Z
        with (currentIndex st + 1 * Z.of_nat (length cards))%Z by lia.
      rewrite Z_mod_plus_full. apply Z.mod_small. lia.
Qed.

Lemma flashcard_index_stays_in_deck_witness :
  (0 <= currentIndex
          (fold_left (press three_cards)
             [PressPrev; PressFlip; PressPrev; PressNext; PressPrev]
             deck_initial) < 3)%Z.
Proof.
  destruct (flashcard_index_stays_in_deck three_cards
              [PressPrev; PressFlip; PressPrev; PressNext; PressPrev])
    as (_ & H & _).
  - discriminate.
  - exact H.
Defined.

(** *** The quiz widget: scores and results *)

Lemma filter_all {A} (P : A -> Prop) `{∀ x, Decision (P x)} (l : list A) :
  (∀ x, x ∈ l -> P x) -> filter P l = l.
Proof.
  induction l as [|x l IH]; intros Hall; [done |].
  rewrite filter_cons, decide_True by apply Hall, list_elem_of_here.
  f_equal. apply IH. intros y Hy. by apply Hall, list_elem_of_further.
Qed.

Lemma correct_count_le (questions : list QuizQuestion) (answers : gmap Z Z) :
  correct_count questions answers ≤ length questions.
Proof. unfold correct_count. apply length_filter. Qed.

(** X8. The score is never more than the number of questions; it is that
    number exactly when every question is answered with its correct index;
    with no answer recorded, as after "Retake", it is 0. *)
Theorem score_bounds (questions : list QuizQuestion) (answers : gmap Z Z)
    (st : QuizState) :
  calculateScore questions answers ≤ length questions
  ∧ (calculateScore questions answers = length questions
     ↔ ∀ q, q ∈ questions -> answers !! id q = Some (correctAnswerIndex q))
  ∧ calculateScore questions (userAnswers (retake st)) = 0
  ∧ showResults (retake st) = false
  ∧ (questions ≠ [] -> submit_disabled questions (retake st) = true).
Proof.
  assert (Hscore : ∀ m, calculateScore questions m = correct_count questions m).
  { intros m. unfold calculateScore. by rewrite score_loop. }
  rewrite !Hscore. split; [apply correct_count_le |]. split; [| split].
  - unfold correct_count. split.
    + intros Hlen q Hq.
      destruct (decide (answers !! id q = Some (correctAnswerIndex q)))
        as [Hok|Hbad]; [done |].
      pose proof (length_filter_lt
        (fun q => answers !! id q = Some (correctAnswerIndex q))
        questions q Hq Hbad). lia.
    + intros Hall. f_equal. by apply filter_all.
  - unfold correct_count. simpl. clear Hscore.
    induction questions as [|q qs IH]; [done |].
    rewrite filter_cons, decide_False; [exact IH |].
    by rewrite lookup_empty.
  - split; [done |]. intros Hne. unfold submit_disabled. simpl.
    rewrite map_size_empty. destruct questions; [done | done].
Qed.

Lemma score_bounds_witness :
  submit_disabled ten_questions (retake nine_answered) = true.
Proof.
  destruct (score_bounds ten_questions ∅ nine_answered) as (_ & _ & _ & _ & H).
  apply H. discriminate.
Defined.

(** In a reachable state with the button enabled, every question is
    answered. *)
Lemma enabled_all_answered (questions : list QuizQuestion) (st : QuizState) :
  reachable questions st ->
  submit_disabled questions st = false -> all_answered questions st.
Proof.
  intros Hreach. pose proof (reachable_dom questions st Hreach) as Hdom.
  rewrite submit_disabled_size, all_answered_dom. intros Hsize.
  pose proof (size_ids_le (id <$> questions)) as Hle.
  rewrite length_fmap in Hle.
  rewrite (set_subseteq_size_eq _ _ Hdom); [done | lia].
Qed.

(** X9. Results are only ever shown for a completely answered quiz, and
    while they are shown the answers cannot change: in every state the widget
    reaches with the results on display, every question has a recorded
    answer and a click on an option leaves the state as it is. *)
Theorem results_only_for_complete_quiz (questions : list QuizQuestion)
    (st : QuizState) :
  reachable questions st ->
  showResults st = true ->
  all_answered questions st
  ∧ ∀ qId optionIdx, handleOptionSelect qId optionIdx st = st.
Proof.
  intros Hreach Hshow. split.
  - induction Hreach as [|q optIdx st Hst IH Hq Hopt|st Hst IH Hs Hen
                         |st Hst IH Hs]; simpl in Hshow.
    + discriminate.
    + unfold handleOptionSelect in *.
      destruct (showResults st) eqn:Hs; [by apply IH |]. discriminate.
    + unfold all_answered. simpl. by apply enabled_all_answered.
    + discriminate.
  - intros qId optionIdx. unfold handleOptionSelect. by rewrite Hshow.
Qed.

Lemma reachable_ten_answered : reachable ten_questions ten_answered.
Proof.
  assert (Hstep : ∀ i st, (1 <= i <= 10)%Z ->
            reachable ten_questions st ->
            reachable ten_questions (handleOptionSelect i 0 st)).
  { intros i st Hi Hst.
    apply (reach_select ten_questions (mk_question i (Z.rem i 4)) 0 st Hst).
    - apply list_elem_of_In. unfold ten_questions.
      apply (in_map (fun i => mk_question i (Z.rem i 4))). simpl. lia.
    - simpl. lia. }
  unfold ten_answered, ten_selections, select_all. simpl.
  repeat (apply Hstep; [lia |]). apply reach_initial.
Qed.

Lemma results_only_for_complete_quiz_witness :
  handleOptionSelect 3 1 submitted = submitted.
Proof.
  destruct (results_only_for_complete_quiz ten_questions submitted) as [_ H].
  - apply reach_submit.
    + apply reachable_ten_answered.
    + reflexivity.
    + vm_compute. reflexivity.
  - reflexivity.
  - apply H.
Defined.

(** *** Starting a run from the upload screen *)

Section UploadProperties.

Import UploadFlow.

Variable generateContent : Request -> Promise Response.
Variable noembed : jsstring -> Promise (option jsstring).

Lemma fetchVideoTitle_cases (url : jsstring) :
  ∃ t, fetchVideoTitle noembed url = Fulfilled t
       ∧ match t with Some s => truthy s = true | None => True end.
Proof.
  unfold fetchVideoTitle. destruct (noembed url) as [[t|]|e]; simpl.
  - destruct (truthy t) eqn:Ht; eexists; (split; [reflexivity |]); done.
  - by exists None.
  - by exists None.
Qed.

Lemma generateYouTubeTranscript_cases (url : jsstring)
    (title : option jsstring) :
  ∃ transcript,
    generateYouTubeTranscript generateContent url title = Fulfilled transcript
    ∧ truthy transcript = true
    ∧ (∀ e, generateContent (youtube_request url title) = Rejected e ->
            transcript = str "Error processing YouTube video. The AI could not access the video content directly.").
Proof.
  unfold generateYouTubeTranscript.
  destruct (generateContent (youtube_request url title)) as [resp|e]; simpl.
  - eexists. split; [reflexivity |]. split; [| discriminate].
    unfold or_else. destruct (response_text resp) as [t|]; [| done].
    by destruct (truthy t) eqn:Ht.
  - eexists. split; [reflexivity |]. split; [done | done].
Qed.

Lemma extractVideoId_length (url id : jsstring) :
  extractVideoId url = Some id -> strlen id = 11.
Proof.
  unfold extractVideoId. destruct (regExp_match url) as [m|]; [| discriminate].
  destruct (Nat.eqb_spec (strlen (group2 m)) 11); [| discriminate].
  by intros [= <-].
Qed.

(** The three ways the video path ends. *)
Lemma handleYouTubeProcess_cases (st : UploadState) :
  (ytUrl st = []
   ∧ handleYouTubeProcess generateContent noembed st = (st, NoEffect))
  ∨ (ytUrl st ≠ [] ∧ extractVideoId (ytUrl st) = None
     ∧ handleYouTubeProcess generateContent noembed st
       = (st, Alert invalid_url_alert))
  ∨ (∃ videoId title transcript,
       extractVideoId (ytUrl st) = Some videoId
       ∧ strlen videoId = 11
       ∧ truthy title = true
       ∧ truthy transcript = true
       ∧ (∀ realTitle e,
            fetchVideoTitle noembed (ytUrl st) = Fulfilled realTitle ->
            generateContent (youtube_request (ytUrl st) realTitle)
            = Rejected e ->
            transcript = str "Error processing YouTube video. The AI could not access the video content directly.")
       ∧ handleYouTubeProcess generateContent noembed st
         = (transcribing_done st,
            OnStart transcript title (up_examType st) (up_timeFrame st)
                    (Some videoId))).
Proof.
  unfold handleYouTubeProcess.
  destruct (ytUrl st) as [|c url] eqn:Hurl; [by left |]. right. simpl.
  destruct (extractVideoId (c :: url)) as [videoId|] eqn:Hid;
    [right | left; done].
  destruct (fetchVideoTitle_cases (c :: url)) as (t & Ht & Htruthy).
  destruct (generateYouTubeTranscript_cases (c :: url) t)
    as (transcript & Htr & Hne & Hrej).
  exists videoId, (or_else t (str "YouTube Lecture")), transcript.
  split; [done |].
  split; [by apply extractVideoId_length in Hid |].
  split; [destruct t as [s|]; simpl; [by rewrite Htruthy |]; done |].
  split; [done |]. split.
  - intros realTitle e Hf Hg. rewrite Ht in Hf. injection Hf as <-. eauto.
  - rewrite Ht. simpl. by rewrite Htr.
Qed.


(** X11. Whenever the enabled start button starts a run, the run carries
    either the pasted text, at least 50 code units long, under the title
    "Lecture 101" and without a video id, or (on the video tab) a video id of
    exactly 11 code units extracted from the URL, with a non-empty
    transcript. *)
Theorem start_click_effect (st : UploadState) (text title : jsstring)
    (et : ExamType) (tf : TimeFrame) (vid : option jsstring) :
  start_disabled st = false ->
  snd (start_click generateContent noembed st) = OnStart text title et tf vid ->
  et = up_examType st ∧ tf = up_timeFrame st
  ∧ ((activeTab st ≠ youtube_tab ∧ vid = None ∧ text = up_text st
      ∧ 50 ≤ strlen text ∧ title = str "Lecture 101")
     ∨ (activeTab st = youtube_tab
        ∧ ∃ v, vid = Some v ∧ strlen v = 11
               ∧ extractVideoId (ytUrl st) = Some v
               ∧ truthy text = true)).
Proof.
  unfold start_disabled, start_click. intros Hen Heff.
  destruct (activeTab st) eqn:Htab.
  - simpl in Heff. injection Heff as <- <- <- <- <-.
    apply Nat.ltb_ge in Hen. repeat split; try done. left. by repeat split.
  - simpl in Heff. injection Heff as <- <- <- <- <-.
    apply Nat.ltb_ge in Hen. repeat split; try done. left. by repeat split.
  - destruct (handleYouTubeProcess_cases st)
      as [[_ H]|[(_ & _ & H)|(v & t & tr & Hid & Hlen & _ & Htr & _ & H)]];
      rewrite H in Heff; simpl in Heff; try discriminate.
    injection Heff as <- <- <- <- <-. repeat split; try done.
    right. split; [done |]. by exists v.
Qed.

End UploadProperties.

(** *** The welcome email *)

Section EmailProperties.

Import EmailService.

Variable process_env : jsstring -> option jsstring.
Variable import_meta_env : jsstring -> option jsstring.
Variable emailjs_send :
  jsstring -> jsstring -> EmailParams -> jsstring -> Promise unit.

Lemma getEnvVar_truthy (key v : jsstring) :
  getEnvVar process_env import_meta_env key = Some v -> truthy v = true.
Proof.
  unfold getEnvVar.
  destruct (process_env key) as [p|]; [destruct (truthy p) eqn:Hp |];
    try (by intros [= <-]);
    destruct (import_meta_env (str "VITE_" ++ key)) as [w|];
    try discriminate;
    destruct (truthy w) eqn:Hw; try discriminate; by intros [= <-].
Qed.

Lemma configured_spec (s t k : jsstring) :
  configured process_env import_meta_env = Some (s, t, k)
  ↔ getEnvVar process_env import_meta_env (str "EMAILJS_SERVICE_ID") = Some s
    ∧ getEnvVar process_env import_meta_env (str "EMAILJS_TEMPLATE_ID")
      = Some t
    ∧ getEnvVar process_env import_meta_env (str "EMAILJS_PUBLIC_KEY")
      = Some k.
Proof.
  unfold configured, SERVICE_ID, TEMPLATE_ID, PUBLIC_KEY, or_undefined.
  simpl.
  destruct (getEnvVar process_env import_meta_env (str "EMAILJS_SERVICE_ID"))
    as [s'|] eqn:Hs;
    destruct (getEnvVar process_env import_meta_env
                (str "EMAILJS_TEMPLATE_ID")) as [t'|] eqn:Ht;
    destruct (getEnvVar process_env import_meta_env
                (str "EMAILJS_PUBLIC_KEY")) as [k'|] eqn:Hk;
    try (split; [discriminate | intros (? & ? & ?); discriminate]).
  rewrite (getEnvVar_truthy _ _ Hs), (getEnvVar_truthy _ _ Ht),
    (getEnvVar_truthy _ _ Hk). simpl.
  split; [by intros [= <- <- <-] | by intros ([= <-] & [= <-] & [= <-])].
Qed.

(** X12. Sending the welcome email never fails and always reports success,
    with the subject and body of the template for that name. It reports a
    real send ([simulated] false) exactly when all three credentials are
    found in the environment and the provider accepts the send; without
    credentials, or when the provider rejects, the result is the
    simulation. *)
Theorem sendWelcomeEmail_never_fails (email name : jsstring) :
  ∃ r,
    sendWelcomeEmail process_env import_meta_env emailjs_send email name
    = Fulfilled r
    ∧ success r = true
    ∧ r_subject r = subject (getWelcomeEmailTemplate name)
    ∧ r_body r = body (getWelcomeEmailTemplate name)
    ∧ (simulated r = false
       ↔ ∃ s t k,
           getEnvVar process_env import_meta_env (str "EMAILJS_SERVICE_ID")
           = Some s
           ∧ getEnvVar process_env import_meta_env
               (str "EMAILJS_TEMPLATE_ID") = Some t
           ∧ getEnvVar process_env import_meta_env
               (str "EMAILJS_PUBLIC_KEY") = Some k
           ∧ emailjs_send s t
               {| to_email := email; to_name := name;
                  p_subject := subject (getWelcomeEmailTemplate name);
                  p_message := body (getWelcomeEmailTemplate name) |} k
             = Fulfilled tt).
Proof.
  unfold sendWelcomeEmail.
  destruct (configured process_env import_meta_env) as [[[s t] k]|] eqn:Hc.
  - pose proof (proj1 (configured_spec s t k) Hc) as (Hs & Ht & Hk).
    destruct (emailjs_send s t _ k) as [[]|e] eqn:Hsend.
    + eexists. split; [reflexivity |]. repeat split; try reflexivity.
      intros _. by exists s, t, k.
    + eexists. split; [reflexivity |]. repeat split; try reflexivity.
      * discriminate.
      * intros (s' & t' & k' & Hs' & Ht' & Hk' & Hsend').
        rewrite Hs in Hs'. rewrite Ht in Ht'. rewrite Hk in Hk'.
        injection Hs' as <-. injection Ht' as <-. injection Hk' as <-.
        rewrite Hsend in Hsend'. discriminate.
  - eexists. split; [reflexivity |]. repeat split; try reflexivity.
    + discriminate.
    + intros (s & t & k & Hs & Ht & Hk & _).
      pose proof (proj2 (configured_spec s t k) (conj Hs (conj Ht Hk))).
      congruence.
Qed.

End EmailProperties.

(** *** Signing in and signing up *)

Section AuthProperties.

Import EmailService Auth.

Variable isSupabaseConfigured : bool.
Variable signUp :
  jsstring -> jsstring -> jsstring -> Promise (AuthResponse BackendUser).
Variable signInWithPassword :
  jsstring -> jsstring -> Promise (AuthResponse SignedInUser).
Variable sendWelcomeEmail : jsstring -> jsstring -> Promise EmailResult.

(** X13. A sign-up never logs the user in by itself. It succeeds when the
    welcome email call is fulfilled (demo mode) or when the backend answers
    with a user and no error and the welcome email call is fulfilled; then
    the welcome screen is raised with the content of that email, no error is
    shown, and "Continue" logs in the pending user: the demo user, or the
    backend's user, named after the typed name (or "Demo Student", or
    "Student"). In every other case (the email call rejects, the backend
    rejects or returns an error, or returns no user) the welcome screen, its
    content and the pending user stay as they were. *)
Theorem sign_up_goes_through_welcome (st : AuthState) :
  isSignUp st = true ->
  snd (handleAuth isSupabaseConfigured signUp signInWithPassword
         sendWelcomeEmail st) = None
  ∧ (∀ er,
       isSupabaseConfigured = false ->
       sendWelcomeEmail (a_email st)
         (or_else (Some (a_name st)) (str "Demo Student")) = Fulfilled er ->
       fst (handleAuth isSupabaseConfigured signUp signInWithPassword
              sendWelcomeEmail st)
       = {| isSignUp := true; a_email := a_email st;
            password := password st; a_name := a_name st;
            loading := false; a_error := None; showWelcome := true;
            welcomeData := Some {| w_subject := r_subject er;
                                   w_body := r_body er;
                                   w_simulated := simulated er |};
            pendingUser :=
              Some {| user_id := str "demo-user-123"; email := a_email st;
                      name := Some (or_else (Some (a_name st))
                                      (str "Demo Student")) |} |}
       ∧ handleContinue
           (fst (handleAuth isSupabaseConfigured signUp signInWithPassword
                   sendWelcomeEmail st))
         = Some {| user_id := str "demo-user-123"; email := a_email st;
                   name := Some (or_else (Some (a_name st))
                                   (str "Demo Student")) |})
  ∧ (∀ r u er,
       isSupabaseConfigured = true ->
       signUp (a_email st) (password st) (a_name st) = Fulfilled r ->
       resp_error r = None ->
       data_user r = Some u ->
       sendWelcomeEmail (or_else (b_email u) (a_email st))
         (or_else (Some (a_name st)) (str "Student")) = Fulfilled er ->
       fst (handleAuth isSupabaseConfigured signUp signInWithPassword
              sendWelcomeEmail st)
       = {| isSignUp := true; a_email := a_email st;
            password := password st; a_name := a_name st;
            loading := true; a_error := None; showWelcome := true;
            welcomeData := Some {| w_subject := r_subject er;
                                   w_body := r_body er;
                                   w_simulated := simulated er |};
            pendingUser :=
              Some {| user_id := b_id u;
                      email := or_else (b_email u) (a_email st);
                      name := Some (or_else (Some (a_name st))
                                      (str "Student")) |} |}
       ∧ handleContinue
           (fst (handleAuth isSupabaseConfigured signUp signInWithPassword
                   sendWelcomeEmail st))
         = Some {| user_id := b_id u;
                   email := or_else (b_email u) (a_email st);
                   name := Some (or_else (Some (a_name st))
                                   (str "Student")) |})
  ∧ ((isSupabaseConfigured = false
      ∧ (∃ e, sendWelcomeEmail (a_email st)
                (or_else (Some (a_name st)) (str "Demo Student"))
              = Rejected e))
     ∨ (isSupabaseConfigured = true
        ∧ ((∃ e, signUp (a_email st) (password st) (a_name st) = Rejected e)
           ∨ (∃ r, signUp (a_email st) (password st) (a_name st)
                   = Fulfilled r
                   ∧ ((∃ e, resp_error r = Some e)
                      ∨ (resp_error r = None ∧ data_user r = None)
                      ∨ (∃ u e, resp_error r = None ∧ data_user r = Some u
                                ∧ sendWelcomeEmail
                                    (or_else (b_email u) (a_email st))
                                    (or_else (Some (a_name st))
                                       (str "Student"))
                                  = Rejected e))))) ->
     showWelcome (fst (handleAuth isSupabaseConfigured signUp
                         signInWithPassword sendWelcomeEmail st))
     = showWelcome st
     ∧ welcomeData (fst (handleAuth isSupabaseConfigured signUp
                           signInWithPassword sendWelcomeEmail st))
       = welcomeData st
     ∧ handleContinue (fst (handleAuth isSupabaseConfigured signUp
                              signInWithPassword sendWelcomeEmail st))
       = handleContinue st).
Proof.
  intros Hsu. unfold handleAuth. rewrite Hsu.
  split; [| split; [| split]].
  - destruct isSupabaseConfigured; simpl.
    + destruct (signUp (a_email st) (password st) (a_name st)) as [r|e];
        simpl; [| done].
      destruct (resp_error r) as [e|]; simpl; [done |].
      destruct (data_user r) as [u|]; simpl; [| done].
      by destruct (sendWelcomeEmail _ _) as [er|e].
    + by destruct (sendWelcomeEmail _ _) as [er|e].
  - intros er -> Her. simpl. simpl in Her. rewrite Her.
    unfold set_welcome, welcome_of. simpl. by rewrite Hsu.
  - intros r u er -> Hr Herr Hu Her. simpl. rewrite Hr. simpl.
    rewrite Herr, Hu. simpl. simpl in Her. rewrite Her. simpl.
    unfold set_welcome, welcome_of. simpl. by rewrite Hsu.
  - intros [[-> (e & He)]|[-> [(e & He)|(r & Hr & Hcase)]]]; simpl.
    + simpl in He. by rewrite He.
    + by rewrite He.
    + rewrite Hr. simpl.
      destruct Hcase as [(e & He)|[[Herr Hu]|(u & e & Herr & Hu & He)]].
      * by rewrite He.
      * by rewrite Herr, Hu.
      * rewrite Herr, Hu. simpl. simpl in He. by rewrite He.
Qed.

(** X14. With the identity backend configured, an error of the backend
    (returned or thrown) logs nobody in and raises no welcome screen; the
    form shows the backend's message, or "An error occurred during
    authentication" when the message is empty. After a failed sign-in the
    loading flag is down; after a failed sign-up it is left up. *)
Theorem auth_failure_is_reported (st : AuthState) (e : Error) :
  isSupabaseConfigured = true ->
  (if isSignUp st
   then signUp (a_email st) (password st) (a_name st) = Rejected e
        ∨ ∃ r, signUp (a_email st) (password st) (a_name st) = Fulfilled r
               ∧ resp_error r = Some e
   else signInWithPassword (a_email st) (password st) = Rejected e
        ∨ ∃ r, signInWithPassword (a_email st) (password st) = Fulfilled r
               ∧ resp_error r = Some e) ->
  handleAuth isSupabaseConfigured signUp signInWithPassword sendWelcomeEmail
    st
  = ({| isSignUp := isSignUp st; a_email := a_email st;
        password := password st; a_name := a_name st;
        loading := isSignUp st;
        a_error := Some (or_else (Some (message e)) default_auth_error);
        showWelcome := showWelcome st; welcomeData := welcomeData st;
        pendingUser := pendingUser st |}, None).
Proof.
  intros Hcfg Hfail. unfold handleAuth. rewrite Hcfg. simpl.
  destruct (isSignUp st) eqn:Hsu.
  - destruct Hfail as [-> | (r & -> & Hr)]; simpl; rewrite ?Hr;
      unfold set_status; by rewrite Hsu.
  - destruct Hfail as [-> | (r & -> & Hr)]; simpl; rewrite ?Hr;
      unfold set_status; by rewrite Hsu.
Qed.

End AuthProperties.

(** *** The application state over any sequence of events *)

Section MachineProperties.

Import Machine.

Variable generateContent : Request -> Promise Response.
Variable JSON_parse : jsstring -> option JSON.

Lemma step_invariant (c : Config) (e : Event) :
  app_invariant generateContent JSON_parse (app c) ->
  app_invariant generateContent JSON_parse
    (app (step generateContent JSON_parse c e)).
Proof.
  intros [Hauth Hdash]. unfold app_invariant.
  destruct e as [u| | |text title et tf vid|i now|session|session|]; simpl.
  - split; discriminate.
  - split; [done | discriminate].
  - split; discriminate.
  - split; discriminate.
  - destruct (in_flight c !! i) as [sub|]; simpl; [| by split].
    unfold settle.
    destruct (fan_out generateContent JSON_parse (sub_text sub)
                (sub_examType sub) (sub_timeFrame sub)) as [r|err] eqn:Hr;
      simpl.
    + split; [discriminate |]. intros _.
      by exists (sub_text sub), (sub_examType sub), (sub_timeFrame sub), r, now.
    + split; discriminate.
  - destruct session as [u|]; simpl.
    + split; [by destruct (view (app c)) |].
      intros Hv. apply Hdash. by destruct (view (app c)).
    + split; [done | discriminate].
  - destruct session as [u|]; simpl; [split; discriminate | by split].
  - by split.
Qed.

Lemma run_invariant (events : list Event) (c : Config) :
  app_invariant generateContent JSON_parse (app c) ->
  app_invariant generateContent JSON_parse
    (app (run generateContent JSON_parse events c)).
Proof.
  unfold run. revert c.
  induction events as [|e events IH]; intros c Hc; simpl; [done |].
  by apply IH, step_invariant.
Qed.

(** X15. Over every sequence of events (logins, sign-outs, resets,
    submissions, fan-outs settling in any order, session notifications,
    dismissals), whenever the Auth view is up no user is signed in, and
    whenever the Dashboard view is up its seven artifacts are exactly the
    results of one fulfilled fan-out, never a mix, and its chat history is
    the greeting. *)
Theorem dashboard_always_shows_one_bundle (events : list Event) :
  (view (app (run generateContent JSON_parse events initial_config)) = AUTH ->
   user (app (run generateContent JSON_parse events initial_config)) = None)
  ∧ (view (app (run generateContent JSON_parse events initial_config))
     = DASHBOARD ->
     ∃ text et tf r now,
       fan_out generateContent JSON_parse text et tf = Fulfilled r
       ∧ bundle (app (run generateContent JSON_parse events initial_config))
         = bundle_of r
       ∧ chatHistory
           (app (run generateContent JSON_parse events initial_config))
         = [welcome_message now]).
Proof.
  apply (run_invariant events initial_config). split; [done | discriminate].
Qed.

(** X16. Nothing cancels a fan-out: when the session ends while one is in
    flight and the fan-out then settles successfully, the Dashboard view
    comes up with its artifacts although no user is signed in. *)
Theorem stale_fan_out_reopens_dashboard (events : list Event)
    (text title : jsstring) (et : ExamType) (tf : TimeFrame)
    (vid : option jsstring) (now : N) (r : Artifacts) :
  fan_out generateContent JSON_parse text et tf = Fulfilled r ->
  view (app (run generateContent JSON_parse
               (events
                ++ [EvSubmit text title et tf vid; EvSession None;
                    EvSettle (length (in_flight
                                (run generateContent JSON_parse events
                                   initial_config))) now])
               initial_config)) = DASHBOARD
  ∧ user (app (run generateContent JSON_parse
                 (events
                  ++ [EvSubmit text title et tf vid; EvSession None;
                      EvSettle (length (in_flight
                                  (run generateContent JSON_parse events
                                     initial_config))) now])
                 initial_config)) = None
  ∧ bundle (app (run generateContent JSON_parse
                   (events
                    ++ [EvSubmit text title et tf vid; EvSession None;
                        EvSettle (length (in_flight
                                    (run generateContent JSON_parse events
                                       initial_config))) now])
                   initial_config)) = bundle_of r.
Proof.
  intros Hr. unfold run. rewrite fold_left_app. simpl.
  rewrite list_lookup_middle by done. simpl. unfold settle. simpl.
  rewrite Hr. done.
Qed.

End MachineProperties.

(** *** Runs one after the other *)

(** X17. A successful run does not clear the error of an earlier failed
    one: after a run whose summary request is rejected and a second run that
    succeeds, the Dashboard view is up and the error message is still set
    (only sign-out, reset and the close button of the toast clear it). *)
Theorem error_survives_successful_retry
    (gc1 gc2 : Request -> Promise Response)
    (jp1 jp2 : jsstring -> option JSON)
    (text1 title1 text2 title2 : jsstring) (et1 et2 : ExamType)
    (tf1 tf2 : TimeFrame) (vid1 vid2 : option jsstring) (now1 now2 : N)
    (prev : AppState) (e : Error) (resp : Response) :
  gc1 (summary_request text1) = Rejected e ->
  gc2 (summary_request text2) = Fulfilled resp ->
  view (handleStartProcessing gc2 jp2 text2 title2 et2 tf2 vid2 now2
          (handleStartProcessing gc1 jp1 text1 title1 et1 tf1 vid1 now1 prev))
  = DASHBOARD
  ∧ error (handleStartProcessing gc2 jp2 text2 title2 et2 tf2 vid2 now2
             (handleStartProcessing gc1 jp1 text1 title1 et1 tf1 vid1 now1
                prev))
    = Some processing_error
  ∧ error (handleSignOut
             (handleStartProcessing gc1 jp1 text1 title1 et1 tf1 vid1 now1
                prev)) = None
  ∧ error (handleReset
             (handleStartProcessing gc1 jp1 text1 title1 et1 tf1 vid1 now1
                prev)) = None
  ∧ error (Machine.dismiss_error
             (handleStartProcessing gc1 jp1 text1 title1 et1 tf1 vid1 now1
                prev)) = None.
Proof.
  intros H1 H2. unfold handleStartProcessing.
  destruct (fan_out_cases gc1 jp1 text1 et1 tf1)
    as [(r & _ & Hs & _)|(e1 & -> & _)].
  { unfold generateSummary in Hs. rewrite H1 in Hs. discriminate Hs. }
  destruct (fan_out_cases gc2 jp2 text2 et2 tf2)
    as [(r & -> & _)|(e2 & _ & Hs)].
  - done.
  - unfold generateSummary in Hs. rewrite H2 in Hs. discriminate Hs.
Qed.

(** X18. What a successful run shows does not depend on what was in the
    state before: the seven artifacts, the chat history, the lecture, the
    exam type and the time frame after the run are the same from any two
    previous states, so nothing that sign-out or reset left behind
    survives it. *)
Theorem successful_run_overwrites_everything
    (generateContent : Request -> Promise Response)
    (JSON_parse : jsstring -> option JSON)
    (text title : jsstring) (et : ExamType) (tf : TimeFrame)
    (vid : option jsstring) (now : N) (prev1 prev2 : AppState)
    (resp : Response) :
  generateContent (summary_request text) = Fulfilled resp ->
  bundle (handleStartProcessing generateContent JSON_parse text title et tf
            vid now prev1)
  = bundle (handleStartProcessing generateContent JSON_parse text title et tf
              vid now prev2)
  ∧ chatHistory (handleStartProcessing generateContent JSON_parse text title
                   et tf vid now prev1)
    = chatHistory (handleStartProcessing generateContent JSON_parse text
                     title et tf vid now prev2)
  ∧ lecture (handleStartProcessing generateContent JSON_parse text title et
               tf vid now prev1)
    = lecture (handleStartProcessing generateContent JSON_parse text title et
                 tf vid now prev2)
  ∧ view (handleStartProcessing generateContent JSON_parse text title et tf
            vid now prev1) = DASHBOARD.
Proof.
  intros Hresp. unfold handleStartProcessing.
  destruct (fan_out_cases generateContent JSON_parse text et tf)
    as [(r & -> & _)|(e & _ & Hs)]; [done |].
  unfold generateSummary in Hs. rewrite Hresp in Hs. discriminate Hs.
Qed.

(** *** Message ids *)

Lemma str_inj (s s' : string) : str s = str s' -> s = s'.
Proof.
  unfold str. intros H.
  assert (Hl : list_ascii_of_string s = list_ascii_of_string s').
  { revert H. generalize (list_ascii_of_string s) (list_ascii_of_string s').
    induction l as [|a l IH]; intros [|a' l']; simpl; try discriminate;
      [done |].
    intros [= Ha Hl]. f_equal; [| by apply IH].
    rewrite <- (ascii_N_embedding a), <- (ascii_N_embedding a').
    by rewrite Ha. }
  rewrite <- (string_of_list_ascii_of_string s),
    <- (string_of_list_ascii_of_string s'). by rewrite Hl.
Qed.

Lemma N_to_uint_not_nil (n : N) : N.to_uint n ≠ Decimal.Nil.
Proof.
  intros H. pose proof (DecimalN.Unsigned.of_to n) as Hn.
  rewrite H in Hn. simpl in Hn. subst n. discriminate H.
Qed.

(** [toString] gives different texts for different numbers. *)
Lemma toString_inj (n n' : N) : toString n = toString n' -> n = n'.
Proof.
  unfold toString. intros H. apply str_inj in H.
  apply DecimalN.Unsigned.to_uint_inj.
  pose proof (NilZero.usu _ (N_to_uint_not_nil n)) as Hu.
  pose proof (NilZero.usu _ (N_to_uint_not_nil n')) as Hu'.
  rewrite H in Hu. rewrite Hu in Hu'. by injection Hu'.
Qed.

(** X19. The two messages a turn appends carry different ids as long as the
    clock does not run backwards between the question and the reply; and
    a reply read off the clock one millisecond before the next question is
    asked gets the same id as that question. *)
Theorem message_ids_within_a_turn (clk next : Clock) (input reply : jsstring) :
  ((user_now clk <= reply_now clk)%N ->
   msg_id (user_message clk input) ≠ msg_id (ai_message clk reply))
  ∧ (user_now next = (reply_now clk + 1)%N ->
     msg_id (user_message next input) = msg_id (ai_message clk reply)).
Proof.
  split.
  - intros Hclk H. simpl in H. apply toString_inj in H. lia.
  - intros H. simpl. by rewrite H.
Qed.

(** *** Instances *)


Lemma start_click_effect_witness : 50 ≤ strlen demo_text.
Proof.
  destruct (start_click_effect (ai_sample all_down []) noembed_down pasting
              demo_text (str "Lecture 101") UNIVERSITY ONE_WEEK None)
    as (_ & _ & [(_ & _ & _ & H & _)|(H & _)]).
  - reflexivity.
  - reflexivity.
  - exact H.
  - discriminate H.
Defined.

Lemma sendWelcomeEmail_never_fails_witness :
  ∃ r, EmailService.sendWelcomeEmail no_env no_env send_ok (str "a@b.com")
         (str "Jane") = Fulfilled r
       ∧ EmailService.success r = true
       ∧ EmailService.simulated r = true.
Proof.
  destruct (sendWelcomeEmail_never_fails no_env no_env send_ok
              (str "a@b.com") (str "Jane")) as (r & Hr & Hs & _ & _ & Hiff).
  exists r. split; [exact Hr |]. split; [exact Hs |].
  destruct (EmailService.simulated r); [reflexivity |].
  destruct (proj1 Hiff eq_refl) as (s & t & k & H & _). discriminate H.
Defined.

Lemma sign_up_goes_through_welcome_witness :
  Auth.handleContinue
    (fst (Auth.handleAuth false signUp_refused signIn_refused
            (EmailService.sendWelcomeEmail no_env no_env send_ok)
            signing_up))
  = Some {| user_id := str "demo-user-123"; email := str "a@b.com";
            name := Some (str "Jane") |}.
Proof.
  destruct (sign_up_goes_through_welcome false signUp_refused signIn_refused
              (EmailService.sendWelcomeEmail no_env no_env send_ok)
              signing_up) as (_ & Hdemo & _).
  - reflexivity.
  - destruct (Hdemo (EmailService.simulation
                       (EmailService.getWelcomeEmailTemplate (str "Jane"))))
      as [_ H].
    + reflexivity.
    + reflexivity.
    + exact H.
Defined.

Lemma auth_failure_is_reported_witness :
  Auth.a_error
    (fst (Auth.handleAuth true signUp_refused signIn_refused
            (EmailService.sendWelcomeEmail no_env no_env send_ok)
            signing_in))
  = Some (str "Invalid login credentials").
Proof.
  rewrite (auth_failure_is_reported true signUp_refused signIn_refused
             (EmailService.sendWelcomeEmail no_env no_env send_ok)
             signing_in invalid_credentials).
  - reflexivity.
  - reflexivity.
  - right. eexists. split; reflexivity.
Defined.

Lemma dashboard_always_shows_one_bundle_witness :
  user (Machine.app
          (Machine.run (ai_sample nothing_down good_quiz_text)
             JSON_parse_table
             [Machine.EvLogin jane; Machine.EvSession None]
             Machine.initial_config)) = None.
Proof.
  destruct (dashboard_always_shows_one_bundle
              (ai_sample nothing_down good_quiz_text) JSON_parse_table
              [Machine.EvLogin jane; Machine.EvSession None]) as [H _].
  apply H. reflexivity.
Defined.

Lemma stale_fan_out_reopens_dashboard_witness :
  view (Machine.app
          (Machine.run (ai_sample nothing_down good_quiz_text)
             JSON_parse_table
             [Machine.EvLogin jane;
              Machine.EvSubmit demo_text (str "Lecture 101") UNIVERSITY
                ONE_WEEK None;
              Machine.EvSession None;
              Machine.EvSettle 0 1700000000000]
             Machine.initial_config)) = DASHBOARD
  ∧ user (Machine.app
            (Machine.run (ai_sample nothing_down good_quiz_text)
               JSON_parse_table
               [Machine.EvLogin jane;
                Machine.EvSubmit demo_text (str "Lecture 101") UNIVERSITY
                  ONE_WEEK None;
                Machine.EvSession None;
                Machine.EvSettle 0 1700000000000]
               Machine.initial_config)) = None.
Proof.
  destruct (fan_out (ai_sample nothing_down good_quiz_text) JSON_parse_table
              demo_text UNIVERSITY ONE_WEEK) as [r|e] eqn:Hr.
  - destruct (stale_fan_out_reopens_dashboard
                (ai_sample nothing_down good_quiz_text) JSON_parse_table
                [Machine.EvLogin jane] demo_text (str "Lecture 101")
                UNIVERSITY ONE_WEEK None 1700000000000 r Hr)
      as (Hv & Hu & _).
    split; [exact Hv | exact Hu].
  - vm_compute in Hr. discriminate Hr.
Defined.

Lemma error_survives_successful_retry_witness :
  error (handleStartProcessing (ai_sample nothing_down good_quiz_text)
           JSON_parse_table demo_text (str "Lecture 101") UNIVERSITY
           ONE_WEEK None 1700000060000 after_failed_processing)
  = Some processing_error.
Proof.
  destruct (error_survives_successful_retry
              (ai_sample summary_down good_quiz_text)
              (ai_sample nothing_down good_quiz_text)
              JSON_parse_table JSON_parse_table
              demo_text (str "Lecture 101") demo_text (str "Lecture 101")
              COMPETITIVE UNIVERSITY ONE_DAY ONE_WEEK None None
              1700000000000 1700000060000 signed_in service_unavailable
              {| response_text :=
                   Some (str "Supervised learning uses labelled data.") |})
    as (_ & H & _).
  - reflexivity.
  - reflexivity.
  - exact H.
Defined.

Lemma successful_run_overwrites_everything_witness :
  bundle (handleStartProcessing (ai_sample nothing_down good_quiz_text)
            JSON_parse_table demo_text (str "Lecture 101") UNIVERSITY
            ONE_WEEK None 1700000060000 signed_in)
  = bundle (handleStartProcessing (ai_sample nothing_down good_quiz_text)
              JSON_parse_table demo_text (str "Lecture 101") UNIVERSITY
              ONE_WEEK None 1700000060000 (handleSignOut on_dashboard)).
Proof.
  destruct (successful_run_overwrites_everything
              (ai_sample nothing_down good_quiz_text) JSON_parse_table
              demo_text (str "Lecture 101") UNIVERSITY ONE_WEEK None
              1700000060000 signed_in (handleSignOut on_dashboard)
              {| response_text :=
                   Some (str "Supervised learning uses labelled data.") |})
    as [H _].
  - reflexivity.
  - exact H.
Defined.

Lemma message_ids_within_a_turn_witness :
  msg_id (user_message sample_clock (str "What is clustering?"))
  ≠ msg_id (ai_message sample_clock (str "Clustering groups data.")).
Proof.
  destruct (message_ids_within_a_turn sample_clock later_clock
              (str "What is clustering?") (str "Clustering groups data."))
    as [H _].
  apply H. vm_compute. discriminate.
Defined.

(** *** Quizzes with a repeated id *)

Lemma size_ids_NoDup (ids : list Z) :
  size (list_to_set ids : gset Z) = length ids -> NoDup ids.
Proof.
  induction ids as [|i ids IH]; [constructor |].
  rewrite list_to_set_cons. simpl length.
  pose proof (size_ids_le ids) as Hle.
  destruct (decide (i ∈ (list_to_set ids : gset Z))) as [Hin|Hnin].
  - rewrite subseteq_union_1_L by (by apply singleton_subseteq_l). lia.
  - rewrite size_union by (by apply disjoint_singleton_l).
    rewrite size_singleton. intros H. apply NoDup_cons. split.
    + intros Hi. apply Hnin. by apply elem_of_list_to_set.
    + apply IH. lia.
Qed.

(** X20. A quiz in which two questions carry the same id can never be
    submitted: in every state the widget reaches for it the submit button is
    disabled, so its results are never shown. *)
Theorem repeated_id_blocks_submission (questions : list QuizQuestion)
    (st : QuizState) :
  ¬ NoDup (id <$> questions) ->
  reachable questions st ->
  submit_disabled questions st = true ∧ showResults st = false.
Proof.
  intros Hdup Hreach.
  assert (Hdis : ∀ st', reachable questions st' ->
                   submit_disabled questions st' = true).
  { intros st' Hst'. apply not_false_iff_true. intros Hen.
    apply Hdup, size_ids_NoDup.
    pose proof (reachable_dom questions st' Hst') as Hdom.
    pose proof (size_ids_le (id <$> questions)) as Hle.
    apply submit_disabled_size in Hen.
    apply subseteq_size in Hdom. rewrite length_fmap in *. lia. }
  split; [by apply Hdis |].
  induction Hreach as [|q optIdx st Hst IH Hq Hopt|st Hst IH Hs Hen
                       |st Hst IH Hs]; simpl.
  - done.
  - unfold handleOptionSelect. by destruct (showResults st) eqn:Hs.
  - rewrite (Hdis st Hst) in Hen. discriminate Hen.
  - done.
Qed.

Lemma repeated_id_blocks_submission_witness :
  submit_disabled twin_questions twin_answered = true.
Proof.
  destruct (repeated_id_blocks_submission twin_questions twin_answered)
    as [H _].
  - intros Hnd. apply NoDup_cons in Hnd as [Hnin _]. apply Hnin.
    apply list_elem_of_here.
  - apply (reach_select twin_questions (mk_question 1 0) 0 quiz_initial).
    + apply reach_initial.
    + apply list_elem_of_here.
    + simpl. lia.
  - exact H.
Defined.
